(** * DeviceNameHelperRK: the device-name retrieval engine

    A shallow embedding of [DeviceNameHelperRK.h] / [DeviceNameHelperRK.cpp]
    (the persisted record, the C string handling of the subscription handler
    and the function-pointer state machine driven by [loop()]), followed by
    the properties of the engine that the specification states. *)

From Stdlib Require Import ZArith List Bool Lia.
From Stdlib Require Import Strings.Byte.
From Stdlib Require Strings.String.
Import String.StringSyntax.
Delimit Scope string_scope with string.
Import ListNotations.
Local Open Scope Z_scope.

(** ** C strings over byte buffers *)

Module CString.

(** A [char] buffer is the list of the bytes it holds.  A [const char *]
    argument is the memory it points to; the C string it denotes is the
    run of bytes before the first NUL. *)
Definition is_nul (b : byte) : bool :=
  match b with x00 => true | _ => false end.

Fixpoint strlen (s : list byte) : nat :=
  match s with
  | [] => 0%nat
  | b :: t => if is_nul b then 0%nat else S (strlen t)
  end.

(** The characters of the C string held in a buffer. *)
Fixpoint cstr (s : list byte) : list byte :=
  match s with
  | [] => []
  | b :: t => if is_nul b then [] else b :: cstr t
  end.

(** Writing [w] at the start of [dst]; what lies behind is kept. *)
Definition overwrite (dst w : list byte) : list byte :=
  w ++ skipn (length w) dst.

(** [strcpy(dst, src)]: the characters of [src] and its terminator. *)
Definition strcpy (dst src : list byte) : list byte :=
  overwrite dst (cstr src ++ [x00]).

(** [strncpy(dst, src, n)]: exactly [n] bytes are written, the characters
    of [src] (at most [n] of them) padded with NULs; no terminator is
    added when [src] has [n] characters or more. *)
Definition strncpy (dst src : list byte) (n : nat) : list byte :=
  overwrite dst (firstn n (cstr src ++ repeat x00 n)).

(** [buf[i] = b] for [i] inside the buffer (a list shorter than [i] is
    left as it is). *)
Fixpoint store (buf : list byte) (i : nat) (b : byte) : list byte :=
  match buf, i with
  | [], _ => []
  | _ :: t, O => b :: t
  | c :: t, S j => c :: store t j b
  end.

(** [buf[i]]. *)
Definition load (buf : list byte) (i : nat) : byte := nth i buf x00.

(** A buffer holds a terminated string when a NUL occurs in it. *)
Definition terminated (buf : list byte) : Prop :=
  (strlen buf < length buf)%nat.

End CString.
Import CString.

(** ** The persisted record *)

Definition DEVICENAMEHELPER_MAX_NAME_LEN : nat := 31.

(** [struct DeviceNameHelperData]: [uint32_t magic; uint8_t size;
    uint8_t flags; uint16_t reserved; long lastCheck;
    char name[DEVICENAMEHELPER_MAX_NAME_LEN + 1]]. *)
Record DeviceNameHelperData : Type := mkData {
  magic : Z;
  size : Z;
  flags : Z;
  reserved : Z;
  lastCheck : Z;
  name : list byte
}.

Definition DATA_MAGIC : Z := 0x7787a2f2.

(** [sizeof(DeviceNameHelperData)] on the 32-bit target ("currently 44
    bytes"): 4 + 1 + 1 + 2 + 4 + 32. *)
Definition sizeof_DeviceNameHelperData : Z :=
  4 + 1 + 1 + 2 + 4 + Z.of_nat (DEVICENAMEHELPER_MAX_NAME_LEN + 1).

(** [memset(data, 0, sizeof(DeviceNameHelperData))]. *)
Definition memset_zero : DeviceNameHelperData :=
  mkData 0 0 0 0 0 (repeat x00 (DEVICENAMEHELPER_MAX_NAME_LEN + 1)).

Definition set_magic (v : Z) (d : DeviceNameHelperData) :=
  mkData v (size d) (flags d) (reserved d) (lastCheck d) (name d).
Definition set_size (v : Z) (d : DeviceNameHelperData) :=
  mkData (magic d) v (flags d) (reserved d) (lastCheck d) (name d).
Definition set_lastCheck (v : Z) (d : DeviceNameHelperData) :=
  mkData (magic d) (size d) (flags d) (reserved d) v (name d).
Definition set_name (v : list byte) (d : DeviceNameHelperData) :=
  mkData (magic d) (size d) (flags d) (reserved d) (lastCheck d) v.

(** The validation of [commonSetup] on the record itself:
    [if (data->magic != DATA_MAGIC || data->size != sizeof(...)) {
       memset(...); data->magic = DATA_MAGIC; data->size = (uint8_t) sizeof(...); }] *)
Definition validate (d : DeviceNameHelperData) : DeviceNameHelperData :=
  if negb (magic d =? DATA_MAGIC) || negb (size d =? sizeof_DeviceNameHelperData)
  then set_size (sizeof_DeviceNameHelperData mod 256)
         (set_magic DATA_MAGIC memset_zero)
  else d.

(** [data->name[0]] used as a condition. *)
Definition name_set (d : DeviceNameHelperData) : bool :=
  negb (is_nul (load (name d) 0)).

(** The record is laid out as declared: the name buffer has its 32 bytes. *)
Definition well_sized (d : DeviceNameHelperData) : Prop :=
  length (name d) = S DEVICENAMEHELPER_MAX_NAME_LEN.

(** ** The engine object *)

(** The member functions a [stateHandler] can be bound to. *)
Inductive Handler : Type :=
| Start | Subscribe | WaitConnected | WaitRequest
| WaitResponse | WaitRetry | WaitRecheck.

(** A registered name callback (a [std::function] taking the name); the
    engine only tests it for emptiness and calls it, so it is known by a
    token. *)
Definition Callback : Type := nat.

(** The fields of [class DeviceNameHelper]; [data] and [stateHandler] are
    [None] when the C++ member is null. *)
Record DeviceNameHelper : Type := mkEngine {
  data : option DeviceNameHelperData;
  checkPeriod : Z;
  nameCallback : option Callback;
  stateHandler : option Handler;
  stateTime : Z;
  hasSubscribed : bool;
  gotResponse : bool;
  forceCheck : bool
}.

(** The member initialisers of the class. *)
Definition constructed : DeviceNameHelper :=
  mkEngine None 0 None None 0 false false false.

Definition with_data v (s : DeviceNameHelper) :=
  mkEngine v (checkPeriod s) (nameCallback s) (stateHandler s) (stateTime s)
    (hasSubscribed s) (gotResponse s) (forceCheck s).
Definition with_checkPeriod v (s : DeviceNameHelper) :=
  mkEngine (data s) v (nameCallback s) (stateHandler s) (stateTime s)
    (hasSubscribed s) (gotResponse s) (forceCheck s).
Definition with_nameCallback v (s : DeviceNameHelper) :=
  mkEngine (data s) (checkPeriod s) v (stateHandler s) (stateTime s)
    (hasSubscribed s) (gotResponse s) (forceCheck s).
Definition with_stateHandler v (s : DeviceNameHelper) :=
  mkEngine (data s) (checkPeriod s) (nameCallback s) v (stateTime s)
    (hasSubscribed s) (gotResponse s) (forceCheck s).
Definition with_stateTime v (s : DeviceNameHelper) :=
  mkEngine (data s) (checkPeriod s) (nameCallback s) (stateHandler s) v
    (hasSubscribed s) (gotResponse s) (forceCheck s).
Definition with_hasSubscribed v (s : DeviceNameHelper) :=
  mkEngine (data s) (checkPeriod s) (nameCallback s) (stateHandler s)
    (stateTime s) v (gotResponse s) (forceCheck s).
Definition with_gotResponse v (s : DeviceNameHelper) :=
  mkEngine (data s) (checkPeriod s) (nameCallback s) (stateHandler s)
    (stateTime s) (hasSubscribed s) v (forceCheck s).
Definition with_forceCheck v (s : DeviceNameHelper) :=
  mkEngine (data s) (checkPeriod s) (nameCallback s) (stateHandler s)
    (stateTime s) (hasSubscribed s) (gotResponse s) v.

(** ** The platform *)

(** What the Device OS answers during one call of [loop()]: [millis()],
    [Particle.connected()], [Time.isValid()] and [Time.now()].  A handler
    runs to completion within a tick, so each is sampled once per call. *)
Record Env : Type := mkEnv {
  millis : Z;
  Particle_connected : bool;
  Time_isValid : bool;
  Time_now : Z
}.

(** What the engine does to the outside, in the order it does it. *)
Inductive Event : Type :=
| EvSubscribe (topic : String.string)
| EvPublish (topic : String.string)
| EvSave (record : option DeviceNameHelperData)
| EvNameCallback (f : Callback) (arg : list byte).

Definition device_name_topic : String.string := "particle/device/name"%string.

(** [unsigned long] arithmetic on the target: 32 bits, wrapping. *)
Definition wrap_u32 (z : Z) : Z := z mod 2 ^ 32.

(** [std::chrono::seconds::rep] arithmetic: 64 bits, two's complement. *)
Definition wrap_s64 (z : Z) : Z := (z + 2 ^ 63) mod 2 ^ 64 - 2 ^ 63.

Definition POST_CONNECT_WAIT_MS : Z := 2000.
Definition RESPONSE_WAIT_MS : Z := 15000.
Definition RETRY_WAIT_MS : Z := 5 * 60 * 1000.

(** ** Member functions as state transformers *)

(** A call either runs into a null [data] pointer ([Undefined]) or returns
    a value, the object after the call and the events it caused. *)
Inductive Outcome (A : Type) : Type :=
| Undefined
| Ok (a : A) (s : DeviceNameHelper) (out : list Event).
Arguments Undefined {A}.
Arguments Ok {A} a s out.

Definition M (A : Type) : Type := DeviceNameHelper -> Outcome A.

Definition ret {A} (a : A) : M A := fun s => Ok a s [].

Definition bind {A B} (m : M A) (f : A -> M B) : M B := fun s =>
  match m s with
  | Undefined => Undefined
  | Ok a s1 o1 =>
      match f a s1 with
      | Undefined => Undefined
      | Ok b s2 o2 => Ok b s2 (o1 ++ o2)
      end
  end.

Declare Scope engine_scope.
Delimit Scope engine_scope with engine.
Notation "x <- m ;; k" := (bind m (fun x => k))
  (at level 61, m at next level, right associativity) : engine_scope.
Notation "m ;; k" := (bind m (fun _ => k))
  (at level 61, right associativity) : engine_scope.
Local Open Scope engine_scope.

Definition this : M DeviceNameHelper := fun s => Ok s s [].
Definition modify (f : DeviceNameHelper -> DeviceNameHelper) : M unit :=
  fun s => Ok tt (f s) [].
Definition emit (e : Event) : M unit := fun s => Ok tt s [e].

(** [*data]: undefined when [data] is null. *)
Definition deref_data : M DeviceNameHelperData := fun s =>
  match data s with
  | Some d => Ok d s []
  | None => Undefined
  end.

(** An assignment through [data->]. *)
Definition update_data (f : DeviceNameHelperData -> DeviceNameHelperData)
  : M unit :=
  d <- deref_data ;; modify (with_data (Some (f d))).

(** [save()]: the virtual call; the base class does nothing, the EEPROM and
    file subclasses write their record, as it is at the call, to their
    medium.  The event carries what [data] points to at the call. *)
Definition save : M unit :=
  s <- this ;; emit (EvSave (data s)).

(** [if (nameCallback) { nameCallback(data->name); }] *)
Definition notify_name : M unit :=
  s <- this ;;
  match nameCallback s with
  | Some f => d <- deref_data ;; emit (EvNameCallback f (cstr (name d)))
  | None => ret tt
  end.

(** [millis() - stateTime]. *)
Definition elapsed (env : Env) (s : DeviceNameHelper) : Z :=
  wrap_u32 (millis env - stateTime s).

Definition goto (h : option Handler) : M unit :=
  modify (with_stateHandler h).
Definition mark_time (env : Env) : M unit :=
  modify (with_stateTime (millis env)).

(** ** The state handlers *)

Definition stateStart (env : Env) : M unit :=
  d <- deref_data ;;
  if name_set d then
    notify_name ;;
    goto (Some WaitRecheck) ;;
    mark_time env
  else
    goto (Some Subscribe).

Definition stateSubscribe : M unit :=
  s <- this ;;
  (if negb (hasSubscribed s) then
     emit (EvSubscribe device_name_topic) ;;
     modify (with_hasSubscribed true)
   else ret tt) ;;
  goto (Some WaitConnected).

Definition stateWaitConnected (env : Env) : M unit :=
  if negb (Particle_connected env) || negb (Time_isValid env) then ret tt
  else
    goto (Some WaitRequest) ;;
    mark_time env.

Definition stateWaitRequest (env : Env) : M unit :=
  s <- this ;;
  if elapsed env s <? POST_CONNECT_WAIT_MS then ret tt
  else
    modify (with_gotResponse false) ;;
    emit (EvPublish device_name_topic) ;;
    goto (Some WaitResponse) ;;
    mark_time env.

Definition stateWaitResponse (env : Env) : M unit :=
  s <- this ;;
  if gotResponse s then
    d <- deref_data ;;
    if name_set d then
      update_data (set_lastCheck (Time_now env)) ;;
      save ;;
      notify_name ;;
      goto (Some WaitRecheck) ;;
      mark_time env
    else
      goto (Some WaitRetry) ;;
      mark_time env
  else if RESPONSE_WAIT_MS <=? elapsed env s then
    goto (Some WaitRetry) ;;
    mark_time env
  else ret tt.

Definition stateWaitRetry (env : Env) : M unit :=
  s <- this ;;
  if RETRY_WAIT_MS <=? elapsed env s then goto (Some WaitConnected)
  else ret tt.

(** In the last test [Time.isValid()] guards the read of [data->lastCheck];
    the sum is formed in the 64-bit type of [checkPeriod.count()]. *)
Definition stateWaitRecheck (env : Env) : M unit :=
  s <- this ;;
  if elapsed env s <? 10000 then ret tt
  else
    mark_time env ;;
    if forceCheck s then
      modify (with_forceCheck false) ;;
      goto (Some Subscribe)
    else if checkPeriod s =? 0 then
      goto None
    else if Time_isValid env then
      d <- deref_data ;;
      if wrap_s64 (lastCheck d + checkPeriod s) <? Time_now env then
        goto (Some Subscribe)
      else ret tt
    else ret tt.

(** The call through [stateHandler] made by [loop()]. *)
Definition dispatch (h : Handler) (env : Env) : M unit :=
  match h with
  | Start => stateStart env
  | Subscribe => stateSubscribe
  | WaitConnected => stateWaitConnected env
  | WaitRequest => stateWaitRequest env
  | WaitResponse => stateWaitResponse env
  | WaitRetry => stateWaitRetry env
  | WaitRecheck => stateWaitRecheck env
  end.

(** ** The public member functions *)

Definition loop (env : Env) : M unit :=
  s <- this ;;
  match stateHandler s with
  | Some h => dispatch h env
  | None => ret tt
  end.

Definition withNameCallback (cb : option Callback) : M unit :=
  modify (with_nameCallback cb).

Definition withCheckPeriod (seconds : Z) : M unit :=
  modify (with_checkPeriod seconds).

Definition commonSetup : M unit :=
  update_data validate ;;
  goto (Some Start).

(** The [setup()] of every subclass points [data] at a record ([raw] is
    what that record holds: the member as allocated, what [EEPROM.get] or
    [read] delivered, or the caller's retained structure) and ends in
    [commonSetup()]. *)
Definition setup (raw : DeviceNameHelperData) : M unit :=
  modify (with_data (Some raw)) ;;
  commonSetup.

Definition checkName : M unit :=
  s <- this ;;
  match stateHandler s with
  | None => goto (Some Subscribe)
  | Some _ => modify (with_forceCheck true)
  end.

Definition subscriptionRemoved : M unit :=
  modify (with_hasSubscribed false).

Definition subscriptionHandler (eventData : list byte) : M unit :=
  (if (strlen eventData <? DEVICENAMEHELPER_MAX_NAME_LEN)%nat then
     update_data (fun d => set_name (strcpy (name d) eventData) d)
   else
     update_data (fun d =>
       set_name (strncpy (name d) eventData DEVICENAMEHELPER_MAX_NAME_LEN) d) ;;
     update_data (fun d =>
       set_name (store (name d) DEVICENAMEHELPER_MAX_NAME_LEN x00) d)) ;;
  modify (with_gotResponse true).

(** A [const char *] result: null, or the memory it points to. *)
Inductive cptr : Type :=
| NULL
| PtrTo (mem : list byte).

Definition hasName (s : DeviceNameHelper) : bool :=
  match data s with
  | Some d => negb (is_nul (load (name d) 0))
  | None => false
  end.

Definition getName (s : DeviceNameHelper) : cptr :=
  match data s with
  | Some d => PtrTo (name d)
  | None => PtrTo [x00]
  end.

Definition getLastNameCheckTime (s : DeviceNameHelper) : Z :=
  match data s with
  | Some d => lastCheck d
  | None => 0
  end.

(** The C string behind a pointer. *)
Definition string_at (p : cptr) : option (list byte) :=
  match p with
  | NULL => None
  | PtrTo mem => Some (cstr mem)
  end.

(** ** The driver *)

(** What the application and the Device OS can do with the object after
    construction. *)
Inductive Call : Type :=
| CallLoop (env : Env)
| CallSetup (raw : DeviceNameHelperData)
| CallWithNameCallback (cb : option Callback)
| CallWithCheckPeriod (seconds : Z)
| CallCheckName
| CallSubscriptionRemoved
| CallSubscriptionHandler (eventData : list byte).

Definition call (c : Call) : M unit :=
  match c with
  | CallLoop env => loop env
  | CallSetup raw => setup raw
  | CallWithNameCallback cb => withNameCallback cb
  | CallWithCheckPeriod p => withCheckPeriod p
  | CallCheckName => checkName
  | CallSubscriptionRemoved => subscriptionRemoved
  | CallSubscriptionHandler eventData => subscriptionHandler eventData
  end.

Fixpoint run (cs : list Call) : M unit :=
  match cs with
  | [] => ret tt
  | c :: rest => call c ;; run rest
  end.

(** The object and the events of an outcome. *)
Definition final {A} (o : Outcome A) : option DeviceNameHelper :=
  match o with Ok _ s _ => Some s | Undefined => None end.
Definition events {A} (o : Outcome A) : list Event :=
  match o with Ok _ _ out => out | Undefined => [] end.

Definition is_subscribe (e : Event) : bool :=
  match e with EvSubscribe _ => true | _ => false end.
Definition is_publish (e : Event) : bool :=
  match e with EvPublish _ => true | _ => false end.
Definition count_subscribe (out : list Event) : nat :=
  length (filter is_subscribe out).

(** [f] applied to the object an outcome leaves. *)
Definition on_final {A} (f : DeviceNameHelper -> DeviceNameHelper)
  (o : Outcome A) : Outcome A :=
  match o with
  | Undefined => Undefined
  | Ok a s out => Ok a (f s) out
  end.

(** Calls other than [subscriptionRemoved()]. *)
Definition keeps_subscription (c : Call) : bool :=
  match c with CallSubscriptionRemoved => false | _ => true end.

(** What is left of the one subscription the flag allows. *)
Definition subscriptions_left (s : DeviceNameHelper) : nat :=
  if hasSubscribed s then 0%nat else 1%nat.

(** The record [data] points to, if any, has its 32-byte name buffer. *)
Definition record_well_sized (s : DeviceNameHelper) : Prop :=
  match data s with
  | Some d => well_sized d
  | None => True
  end.

(** A [setup()] is given a record with its 32-byte name buffer. *)
Definition setup_well_sized (c : Call) : Prop :=
  match c with
  | CallSetup raw => well_sized raw
  | _ => True
  end.

(** [setup()], the call that makes [data] non-null. *)
Definition is_setup (c : Call) : bool :=
  match c with CallSetup _ => true | _ => false end.

(** Calls other than [checkName()] and [setup()]. *)
Definition leaves_idle (c : Call) : bool :=
  match c with CallCheckName | CallSetup _ => false | _ => true end.

(** ** The storage subclasses *)

(** The member a subclass points [data] at ([_data], [fileData]): the
    record [data] already points to or, at the first [setup()], what the
    allocation left there. *)
Definition member (alloc : DeviceNameHelperData) (s : DeviceNameHelper)
  : DeviceNameHelperData :=
  match data s with
  | Some d => d
  | None => alloc
  end.

(** [DeviceNameHelperNoStorage::setup()]: [data = &_data; commonSetup()]. *)
Definition DeviceNameHelperNoStorage_setup (alloc : DeviceNameHelperData)
  : M unit :=
  s <- this ;;
  setup (member alloc s).

(** What the file system answers in [DeviceNameHelperFile::setup]: whether
    [open] gave a descriptor, what [read] returned, and what [fileData]
    holds when [read] has filled all of it. *)
Record FileRead : Type := mkFileRead {
  opened : bool;
  read_count : Z;
  read_into : DeviceNameHelperData
}.

(** [DeviceNameHelperFile::setup(path)]:
    [if (fd != -1) { count = read(fd, &fileData, sizeof);
       if (count != sizeof) memset(&fileData, 0, sizeof); close(fd); }
     commonSetup();] *)
Definition DeviceNameHelperFile_setup (alloc : DeviceNameHelperData)
  (fs : FileRead) : M unit :=
  s <- this ;;
  setup (if opened fs then
           if negb (read_count fs =? sizeof_DeviceNameHelperData)
           then memset_zero
           else read_into fs
         else member alloc s).

(** The classes that can stand behind the static [_instance] pointer. *)
Inductive Subclass : Type :=
| NoStorage | EEPROM | Retained | File.

(** [K::instance()] on the static [_instance] ([None] when null, else the
    class the one object was created as): the object returned, and
    [_instance] afterwards. *)
Definition instance (k : Subclass) (_instance : option Subclass)
  : Subclass * option Subclass :=
  match _instance with
  | None => (k, Some k)
  | Some o => (o, Some o)
  end.

Definition getInstance (_instance : option Subclass) : option Subclass :=
  _instance.

(** A sequence of [instance()] calls: the objects returned, in order. *)
Fixpoint instances (ks : list Subclass) (_instance : option Subclass)
  : list Subclass :=
  match ks with
  | [] => []
  | k :: rest =>
      fst (instance k _instance) :: instances rest (snd (instance k _instance))
  end.

(** ** Vocabulary of the further properties *)

(** The record [data] points to, if any, passes the validation. *)
Definition record_valid (s : DeviceNameHelper) : Prop :=
  match data s with
  | Some d => magic d = DATA_MAGIC /\ size d = sizeof_DeviceNameHelperData
  | None => True
  end.

(** The handlers of the request loop. *)
Definition in_request_loop (s : DeviceNameHelper) : bool :=
  match stateHandler s with
  | Some WaitConnected | Some WaitRequest
  | Some WaitResponse | Some WaitRetry => true
  | _ => false
  end.

(** Calls other than a delivered response and [setup()]. *)
Definition no_response (c : Call) : bool :=
  match c with
  | CallSubscriptionHandler _ | CallSetup _ => false
  | _ => true
  end.

Definition is_response (c : Call) : bool :=
  match c with CallSubscriptionHandler _ => true | _ => false end.

Definition is_save (e : Event) : bool :=
  match e with EvSave _ => true | _ => false end.

(** A tick at which the current handler returns at once. *)
Definition still_waiting (s : DeviceNameHelper) (env : Env) : bool :=
  match stateHandler s with
  | None => true
  | Some WaitConnected =>
      negb (Particle_connected env) || negb (Time_isValid env)
  | Some WaitRequest => elapsed env s <? POST_CONNECT_WAIT_MS
  | Some WaitResponse =>
      negb (gotResponse s) && (elapsed env s <? RESPONSE_WAIT_MS)
  | Some WaitRetry => elapsed env s <? RETRY_WAIT_MS
  | Some WaitRecheck => elapsed env s <? 10000
  | Some Start | Some Subscribe => false
  end.

(** Every publish in [out] comes after a subscribe, in [out] or earlier
    ([seen]). *)
Fixpoint subscribed_first (seen : bool) (out : list Event) : bool :=
  match out with
  | [] => true
  | EvSubscribe _ :: rest => subscribed_first true rest
  | EvPublish _ :: rest => seen && subscribed_first seen rest
  | _ :: rest => subscribed_first seen rest
  end.

(** The name callback is handed a non-empty name. *)
Definition callback_named (e : Event) : Prop :=
  match e with
  | EvNameCallback _ arg => arg <> []
  | _ => True
  end.

(** A fresh object set up on record [r] with callback [cb]: the first tick
    reports the name of [r] and goes to [stateWaitRecheck]. *)
Definition restores_name (r : DeviceNameHelperData) : Prop :=
  forall (cb : option Callback) (env : Env),
    run [CallWithNameCallback cb; CallSetup r; CallLoop env] constructed =
      Ok tt
        (mkEngine (Some r) 0 cb (Some WaitRecheck) (millis env)
           false false false)
        match cb with
        | Some f => [EvNameCallback f (cstr (name r))]
        | None => []
        end.

(** What [save()] is called on is a record that restores its name. *)
Definition saved_restores (e : Event) : Prop :=
  match e with
  | EvSave r =>
      exists d, r = Some d /\ validate d = d /\ cstr (name d) <> [] /\
                restores_name d
  | _ => True
  end.

(** In the request loop with no response waiting to be taken. *)
Definition request_pending (s : DeviceNameHelper) : bool :=
  match stateHandler s with
  | Some WaitConnected | Some WaitRequest | Some WaitRetry => true
  | Some WaitResponse => negb (gotResponse s)
  | _ => false
  end.

(** With the flag set or the request loop entered, a subscribe has been
    seen. *)
Definition subscribed_if_needed (seen : bool) (s : DeviceNameHelper) : bool :=
  implb (hasSubscribed s || in_request_loop s) seen.

(** * Properties *)

(** ** C strings *)

Module CStringFacts.

Lemma is_nul_true (b : byte) : is_nul b = true <-> b = x00.
Proof. split; [destruct b; simpl; congruence | intros ->; reflexivity]. Qed.

Lemma length_cstr (s : list byte) : length (cstr s) = strlen s.
Proof.
  induction s as [|b t IH]; simpl; [reflexivity|].
  destruct (is_nul b); simpl; congruence.
Qed.

Lemma cstr_no_nul (s : list byte) :
  Forall (fun b => is_nul b = false) (cstr s).
Proof.
  induction s as [|b t IH]; simpl; [constructor|].
  destruct (is_nul b) eqn:E; [constructor | constructor; assumption].
Qed.

Lemma cstr_before_nul (l r : list byte) :
  Forall (fun b => is_nul b = false) l -> cstr (l ++ x00 :: r) = l.
Proof.
  induction 1 as [|b l Hb _ IH]; simpl; [reflexivity|].
  rewrite Hb, IH. reflexivity.
Qed.

Lemma strlen_before_nul (l r : list byte) :
  Forall (fun b => is_nul b = false) l -> strlen (l ++ x00 :: r) = length l.
Proof.
  intros H. rewrite <- length_cstr, cstr_before_nul by assumption.
  reflexivity.
Qed.

Lemma store_at_length (l r : list byte) (c b : byte) :
  store (l ++ c :: r) (length l) b = l ++ b :: r.
Proof. induction l as [|a l IH]; simpl; [reflexivity | now rewrite IH]. Qed.

Lemma cstr_nil_load (buf : list byte) :
  cstr buf = [] <-> is_nul (load buf 0) = true.
Proof.
  unfold load. destruct buf as [|b t]; simpl; [tauto|].
  destruct (is_nul b); split; intros H; try reflexivity; discriminate H.
Qed.

(** [strcpy] of a string that fits leaves that string, terminated. *)
Lemma strcpy_spec (dst src : list byte) :
  (strlen src < length dst)%nat ->
  cstr (strcpy dst src) = cstr src /\
  length (strcpy dst src) = length dst /\
  strcpy dst src = cstr src ++ x00 :: skipn (S (strlen src)) dst.
Proof.
  intros Hfit.
  assert (E : strcpy dst src = cstr src ++ x00 :: skipn (S (strlen src)) dst).
  { unfold strcpy, overwrite.
    rewrite length_app, length_cstr, <- app_assoc, Nat.add_1_r.
    reflexivity. }
  rewrite E. split; [apply cstr_before_nul, cstr_no_nul|].
  split; [|reflexivity].
  rewrite length_app. cbn [length].
  rewrite length_skipn, length_cstr. lia.
Qed.

(** [strncpy] of a string of [n] characters or more writes its first [n]
    characters and nothing else. *)
Lemma strncpy_long (dst src : list byte) (n : nat) :
  (n <= strlen src)%nat ->
  strncpy dst src n = firstn n (cstr src) ++ skipn n dst.
Proof.
  intros Hlong. unfold strncpy, overwrite.
  rewrite firstn_app, length_cstr.
  replace (n - strlen src)%nat with 0%nat by lia.
  rewrite firstn_O, app_nil_r, length_firstn, length_cstr.
  now rewrite Nat.min_l by assumption.
Qed.

Lemma firstn_no_nul (n : nat) (l : list byte) :
  Forall (fun b => is_nul b = false) l ->
  Forall (fun b => is_nul b = false) (firstn n l).
Proof.
  intros H. revert n.
  induction H as [|b l Hb _ IH]; intros [|n]; simpl; auto.
Qed.

End CStringFacts.
Import CStringFacts.

(** ** Running the engine *)

(** Unfolds the member functions and the plumbing of [M]; arithmetic on
    clock values stays folded. *)
Ltac engine_unfold :=
  cbv beta iota zeta delta
    [loop dispatch call run setup commonSetup checkName subscriptionRemoved
     subscriptionHandler withNameCallback withCheckPeriod
     stateStart stateSubscribe stateWaitConnected stateWaitRequest
     stateWaitResponse stateWaitRetry stateWaitRecheck
     bind ret this modify emit deref_data update_data save notify_name
     goto mark_time
     with_data with_checkPeriod with_nameCallback with_stateHandler
     with_stateTime with_hasSubscribed with_gotResponse with_forceCheck
     data checkPeriod nameCallback stateHandler stateTime hasSubscribed
     gotResponse forceCheck
     on_final final events app negb orb andb].

Ltac engine_unfold_in H :=
  cbv beta iota zeta delta
    [loop dispatch call run setup commonSetup checkName subscriptionRemoved
     subscriptionHandler withNameCallback withCheckPeriod
     stateStart stateSubscribe stateWaitConnected stateWaitRequest
     stateWaitResponse stateWaitRetry stateWaitRecheck
     bind ret this modify emit deref_data update_data save notify_name
     goto mark_time
     with_data with_checkPeriod with_nameCallback with_stateHandler
     with_stateTime with_hasSubscribed with_gotResponse with_forceCheck
     data checkPeriod nameCallback stateHandler stateTime hasSubscribed
     gotResponse forceCheck
     on_final final events app negb orb andb] in H.

(** Opens the object into its fields and puts what is known about them
    into the goal. *)
Ltac open_engine s :=
  destruct s as [dt cp cb sh st hs gr fc];
  cbn [data checkPeriod nameCallback stateHandler stateTime hasSubscribed
       gotResponse forceCheck] in *;
  subst.

(** Case analysis on an innermost test the goal is stuck on. *)
Ltac split_test :=
  match goal with
  | |- context [match ?x with _ => _ end] =>
      lazymatch x with
      | context [match _ with _ => _ end] => fail
      | _ => destruct x eqn:?
      end
  end.

(** ** The record *)

Lemma validate_mismatch (d : DeviceNameHelperData) :
  magic d <> DATA_MAGIC \/ size d <> sizeof_DeviceNameHelperData ->
  validate d =
    mkData DATA_MAGIC sizeof_DeviceNameHelperData 0 0 0
      (repeat x00 (S DEVICENAMEHELPER_MAX_NAME_LEN)).
Proof.
  intros H. unfold validate.
  destruct (magic d =? DATA_MAGIC) eqn:Em;
    destruct (size d =? sizeof_DeviceNameHelperData) eqn:Es;
    try reflexivity.
  apply Z.eqb_eq in Em, Es. tauto.
Qed.

Lemma validate_match (d : DeviceNameHelperData) :
  magic d = DATA_MAGIC -> size d = sizeof_DeviceNameHelperData ->
  validate d = d.
Proof.
  intros Em Es. unfold validate.
  rewrite Em, Es, !Z.eqb_refl. reflexivity.
Qed.

Lemma validate_well_sized (d : DeviceNameHelperData) :
  well_sized d -> well_sized (validate d).
Proof.
  intros H. unfold validate.
  destruct (_ || _); [reflexivity | assumption].
Qed.

(** C2.  [commonSetup()] on a record whose [magic] is not [0x7787a2f2] or
    whose [size] is not the size of the structure leaves the zeroed record
    stamped with the current magic and size (empty name, [lastCheck] 0),
    whatever the record held; a record with matching magic and size is left
    as it is.  In both cases the state handler becomes [stateStart]. *)
Theorem commonSetup_validates_record
  (s : DeviceNameHelper) (raw : DeviceNameHelperData) :
  data s = Some raw ->
  exists d',
    commonSetup s = Ok tt (with_stateHandler (Some Start) (with_data (Some d') s)) [] /\
    (magic raw <> DATA_MAGIC \/ size raw <> sizeof_DeviceNameHelperData ->
       d' = mkData DATA_MAGIC sizeof_DeviceNameHelperData 0 0 0
              (repeat x00 (S DEVICENAMEHELPER_MAX_NAME_LEN)) /\
       magic d' = 0x7787a2f2 /\ size d' = 44 /\
       cstr (name d') = [] /\ name_set d' = false /\ lastCheck d' = 0) /\
    (magic raw = DATA_MAGIC /\ size raw = sizeof_DeviceNameHelperData ->
       d' = raw).
Proof.
  intros Hd. exists (validate raw). split; [|split].
  - open_engine s. reflexivity.
  - intros Hbad. rewrite (validate_mismatch raw Hbad).
    repeat split; reflexivity.
  - intros [Em Es]. now apply validate_match.
Qed.

(** A record of garbage is reset, a valid record is kept. *)
Lemma commonSetup_validates_record_witness :
  exists d',
    commonSetup (with_data (Some (mkData 5 44 1 2 99 [x41; x42])) constructed) =
      Ok tt (with_stateHandler (Some Start)
               (with_data (Some d')
                  (with_data (Some (mkData 5 44 1 2 99 [x41; x42])) constructed))) [] /\
    (5 <> DATA_MAGIC \/ 44 <> sizeof_DeviceNameHelperData ->
       d' = mkData DATA_MAGIC sizeof_DeviceNameHelperData 0 0 0
              (repeat x00 (S DEVICENAMEHELPER_MAX_NAME_LEN)) /\
       magic d' = 0x7787a2f2 /\ size d' = 44 /\
       cstr (name d') = [] /\ name_set d' = false /\ lastCheck d' = 0) /\
    (5 = DATA_MAGIC /\ 44 = sizeof_DeviceNameHelperData ->
       d' = mkData 5 44 1 2 99 [x41; x42]).
Proof.
  apply (commonSetup_validates_record
           (with_data (Some (mkData 5 44 1 2 99 [x41; x42])) constructed)
           (mkData 5 44 1 2 99 [x41; x42])).
  reflexivity.
Defined.

(** ** The subscription handler *)

(** The name buffer after [subscriptionHandler], as a function of the
    buffer before and of the payload. *)
Lemma stored_name_short (buf eventData : list byte) :
  length buf = S DEVICENAMEHELPER_MAX_NAME_LEN ->
  (strlen eventData < DEVICENAMEHELPER_MAX_NAME_LEN)%nat ->
  let buf' := strcpy buf eventData in
  length buf' = S DEVICENAMEHELPER_MAX_NAME_LEN /\
  cstr buf' = cstr eventData /\
  load buf' (strlen eventData) = x00.
Proof.
  intros Hlen Hshort buf'.
  destruct (strcpy_spec buf eventData) as (Hc & Hl & Hshape).
  { rewrite Hlen. unfold DEVICENAMEHELPER_MAX_NAME_LEN in *. lia. }
  subst buf'. split; [congruence|]. split; [assumption|].
  rewrite Hshape. unfold load.
  rewrite <- length_cstr, nth_middle. reflexivity.
Qed.

Lemma stored_name_long (buf eventData : list byte) :
  length buf = S DEVICENAMEHELPER_MAX_NAME_LEN ->
  (DEVICENAMEHELPER_MAX_NAME_LEN <= strlen eventData)%nat ->
  store (strncpy buf eventData DEVICENAMEHELPER_MAX_NAME_LEN)
    DEVICENAMEHELPER_MAX_NAME_LEN x00 =
  firstn DEVICENAMEHELPER_MAX_NAME_LEN (cstr eventData) ++ [x00].
Proof.
  intros Hlen Hlong. rewrite strncpy_long by assumption.
  assert (Hpre : length (firstn DEVICENAMEHELPER_MAX_NAME_LEN (cstr eventData))
                 = DEVICENAMEHELPER_MAX_NAME_LEN).
  { rewrite length_firstn, length_cstr. now apply Nat.min_l. }
  destruct (skipn DEVICENAMEHELPER_MAX_NAME_LEN buf) as [|c r] eqn:Hs.
  { apply (f_equal (@length byte)) in Hs.
    rewrite length_skipn, Hlen in Hs. simpl in Hs.
    unfold DEVICENAMEHELPER_MAX_NAME_LEN in Hs. lia. }
  assert (r = []) as ->.
  { apply (f_equal (@length byte)) in Hs.
    rewrite length_skipn, Hlen in Hs. cbn [length] in Hs.
    unfold DEVICENAMEHELPER_MAX_NAME_LEN in Hs.
    destruct r; [reflexivity | cbn [length] in Hs; lia]. }
  rewrite <- Hpre at 2. apply store_at_length.
Qed.

(** C3.  [subscriptionHandler] on a record with its 32-byte name buffer:
    a payload of more than 31 characters leaves exactly its first 31
    characters followed by the terminator; a payload of at most 31 characters
    is stored as it is; in both cases the buffer keeps its size and holds a
    terminated string of at most 31 characters, the other fields are kept
    and [gotResponse] is set. *)
Theorem subscriptionHandler_stores_name
  (s : DeviceNameHelper) (d : DeviceNameHelperData) (eventData : list byte) :
  data s = Some d ->
  well_sized d ->
  exists buf',
    subscriptionHandler eventData s =
      Ok tt (with_gotResponse true (with_data (Some (set_name buf' d)) s)) [] /\
    ((DEVICENAMEHELPER_MAX_NAME_LEN < strlen eventData)%nat ->
       buf' = firstn DEVICENAMEHELPER_MAX_NAME_LEN (cstr eventData) ++ [x00] /\
       cstr buf' = firstn DEVICENAMEHELPER_MAX_NAME_LEN (cstr eventData)) /\
    ((strlen eventData <= DEVICENAMEHELPER_MAX_NAME_LEN)%nat ->
       cstr buf' = cstr eventData) /\
    length buf' = S DEVICENAMEHELPER_MAX_NAME_LEN /\
    terminated buf' /\
    (strlen buf' <= DEVICENAMEHELPER_MAX_NAME_LEN)%nat /\
    load buf' (strlen buf') = x00.
Proof.
  intros Hd Hwf. unfold well_sized in Hwf.
  destruct (Nat.ltb_spec (strlen eventData) DEVICENAMEHELPER_MAX_NAME_LEN)
    as [Hshort | Hlong].
  - destruct (stored_name_short (name d) eventData Hwf Hshort)
      as (Hl & Hc & Hz).
    exists (strcpy (name d) eventData).
    assert (Hn : strlen (strcpy (name d) eventData) = strlen eventData)
      by (rewrite <- !length_cstr; congruence).
    split.
    { open_engine s. engine_unfold.
      apply Nat.ltb_lt in Hshort. rewrite Hshort. reflexivity. }
    split; [intros; lia|]. split; [intros; assumption|].
    split; [assumption|].
    unfold terminated. rewrite Hn, Hl.
    repeat split; try lia. assumption.
  - pose proof (stored_name_long (name d) eventData Hwf Hlong) as Hshape.
    set (pre := firstn DEVICENAMEHELPER_MAX_NAME_LEN (cstr eventData)) in *.
    assert (Hpre : length pre = DEVICENAMEHELPER_MAX_NAME_LEN).
    { subst pre. rewrite length_firstn, length_cstr. now apply Nat.min_l. }
    assert (Hnn : Forall (fun b => is_nul b = false) pre)
      by (apply firstn_no_nul, cstr_no_nul).
    exists (pre ++ [x00]).
    split.
    { open_engine s. engine_unfold.
      apply Nat.ltb_ge in Hlong. rewrite Hlong.
      cbn [name set_name]. rewrite Hshape. reflexivity. }
    split.
    { intros _. split; [reflexivity | now apply cstr_before_nul]. }
    split.
    { intros Hle. rewrite cstr_before_nul by assumption.
      subst pre. apply firstn_all2. rewrite length_cstr. lia. }
    rewrite length_app, Hpre. cbn [length].
    unfold terminated.
    rewrite strlen_before_nul, length_app, Hpre by assumption.
    cbn [length]. repeat split; try lia.
    unfold load. rewrite <- Hpre. apply nth_middle.
Qed.

(** A payload of 40 characters is cut to its first 31. *)
Lemma subscriptionHandler_stores_name_witness :
  exists buf',
    subscriptionHandler (repeat x41 40)
      (with_data (Some memset_zero) constructed) =
      Ok tt (with_gotResponse true
               (with_data (Some (set_name buf' memset_zero))
                  (with_data (Some memset_zero) constructed))) [] /\
    ((DEVICENAMEHELPER_MAX_NAME_LEN < strlen (repeat x41 40))%nat ->
       buf' = firstn DEVICENAMEHELPER_MAX_NAME_LEN (cstr (repeat x41 40)) ++ [x00] /\
       cstr buf' = firstn DEVICENAMEHELPER_MAX_NAME_LEN (cstr (repeat x41 40))) /\
    ((strlen (repeat x41 40) <= DEVICENAMEHELPER_MAX_NAME_LEN)%nat ->
       cstr buf' = cstr (repeat x41 40)) /\
    length buf' = S DEVICENAMEHELPER_MAX_NAME_LEN /\
    terminated buf' /\
    (strlen buf' <= DEVICENAMEHELPER_MAX_NAME_LEN)%nat /\
    load buf' (strlen buf') = x00.
Proof.
  apply (subscriptionHandler_stores_name
           (with_data (Some memset_zero) constructed) memset_zero
           (repeat x41 40)); reflexivity.
Defined.

(** ** The accessors *)

Lemma call_keeps_null (c : Call) (s s' : DeviceNameHelper) (out : list Event) :
  is_setup c = false -> data s = None ->
  call c s = Ok tt s' out -> data s' = None.
Proof.
  intros Hc Hd Hrun. open_engine s.
  destruct c as [env| | | | | |ev]; try discriminate Hc;
    engine_unfold_in Hrun.
  - destruct sh as [[]|]; engine_unfold_in Hrun;
      repeat match type of Hrun with
             | context [if ?b then _ else _] => destruct b
             end;
      inversion Hrun; reflexivity.
  - inversion Hrun; reflexivity.
  - inversion Hrun; reflexivity.
  - destruct sh; inversion Hrun; reflexivity.
  - inversion Hrun; reflexivity.
  - destruct (_ <? _)%nat; discriminate Hrun.
Qed.

Lemma run_keeps_null (cs : list Call) :
  forallb (fun c => negb (is_setup c)) cs = true ->
  forall s s' out,
    data s = None -> run cs s = Ok tt s' out -> data s' = None.
Proof.
  induction cs as [|c rest IH]; intros Hcs s s' out Hd Hrun.
  - inversion Hrun; subst; assumption.
  - cbn [forallb] in Hcs. apply andb_true_iff in Hcs as [Hc Hrest].
    apply negb_true_iff in Hc.
    cbn [run] in Hrun. unfold bind in Hrun.
    destruct (call c s) as [|[] s1 o1] eqn:E1; [discriminate|].
    destruct (run rest s1) as [|[] s2 o2] eqn:E2; [discriminate|].
    inversion Hrun; subst.
    eapply IH; [exact Hrest | eapply call_keeps_null; eassumption | eassumption].
Qed.

(** C10.  [hasName()] holds exactly when the string [getName()] points to
    is non-empty, and [getName()] is never null.  While [data] is null,
    which is so for the constructed object and after any calls other than
    [setup()], [getName()] points to the empty string, [hasName()] is false
    and [getLastNameCheckTime()] is 0; once [setup()] has run they read the
    record's name buffer and its [lastCheck]. *)
Theorem accessors_agree (s : DeviceNameHelper) :
  getName s <> NULL /\
  (hasName s = true <->
     exists str, string_at (getName s) = Some str /\ str <> []) /\
  (data s = None ->
     getName s = PtrTo [x00] /\ string_at (getName s) = Some [] /\
     hasName s = false /\ getLastNameCheckTime s = 0) /\
  (forall cs s' out,
     forallb (fun c => negb (is_setup c)) cs = true ->
     run cs constructed = Ok tt s' out ->
     string_at (getName s') = Some [] /\ getLastNameCheckTime s' = 0) /\
  (forall raw,
     exists d, final (setup raw s) = Some (with_stateHandler (Some Start)
                                            (with_data (Some d) s)) /\
               d = validate raw) /\
  (forall d, data s = Some d ->
     getName s = PtrTo (name d) /\ getLastNameCheckTime s = lastCheck d).
Proof.
  split; [|split; [|split; [|split; [|split]]]].
  - unfold getName. destruct (data s); discriminate.
  - unfold hasName, getName. destruct (data s) as [d|]; cbn [string_at].
    + rewrite negb_true_iff. split.
      * intros Hn. exists (cstr (name d)). split; [reflexivity|].
        intros Hnil. apply cstr_nil_load in Hnil. congruence.
      * intros (str & Hs & Hne). inversion Hs; subst.
        destruct (is_nul (load (name d) 0)) eqn:E; [|reflexivity].
        apply cstr_nil_load in E. contradiction.
    + split; [discriminate|].
      intros (str & Hs & Hne). inversion Hs; subst. now elim Hne.
  - intros Hd. unfold getName, hasName, getLastNameCheckTime.
    rewrite Hd. repeat split.
  - intros cs s' out Hcs Hrun.
    assert (Hd : data s' = None)
      by (eapply run_keeps_null; eauto; reflexivity).
    unfold getName, getLastNameCheckTime. rewrite Hd. split; reflexivity.
  - intros raw. exists (validate raw). split; [|reflexivity].
    open_engine s. reflexivity.
  - intros d Hd. unfold getName, getLastNameCheckTime. rewrite Hd.
    split; reflexivity.
Qed.

(** ** Single ticks *)

(** C1.  A tick in [stateWaitResponse] with a response received and a
    non-empty name: the record gets [lastCheck = Time.now()], then [save()]
    is called (on the record that already carries the new [lastCheck]), then
    the name callback, if one is registered, is called with the stored name,
    and the handler becomes [stateWaitRecheck] with [stateTime] taken anew.
    Nothing else happens. *)
Theorem stateWaitResponse_update_persist_notify
  (env : Env) (s : DeviceNameHelper) (d : DeviceNameHelperData) :
  stateHandler s = Some WaitResponse ->
  gotResponse s = true ->
  data s = Some d ->
  name_set d = true ->
  let d' := set_lastCheck (Time_now env) d in
  lastCheck d' = Time_now env /\
  loop env s =
    Ok tt
      (with_stateTime (millis env)
         (with_stateHandler (Some WaitRecheck) (with_data (Some d') s)))
      (EvSave (Some d') ::
       match nameCallback s with
       | Some f => [EvNameCallback f (cstr (name d))]
       | None => []
       end).
Proof.
  intros Hh Hg Hd Hn d'. split; [reflexivity|].
  open_engine s. engine_unfold. rewrite Hn.
  destruct cb; reflexivity.
Qed.

(** A fetched name "myroom" at epoch 1000 with callback 7 registered. *)
Lemma stateWaitResponse_update_persist_notify_witness :
  let d := set_name (String.list_byte_of_string "myroom" ++ repeat x00 26)
             memset_zero in
  let s := mkEngine (Some d) 0 (Some 7%nat) (Some WaitResponse) 2000
             true true false in
  let env := mkEnv 3000 true true 1000 in
  let d' := set_lastCheck (Time_now env) d in
  lastCheck d' = Time_now env /\
  loop env s =
    Ok tt
      (with_stateTime (millis env)
         (with_stateHandler (Some WaitRecheck) (with_data (Some d') s)))
      (EvSave (Some d') ::
       match nameCallback s with
       | Some f => [EvNameCallback f (cstr (name d))]
       | None => []
       end).
Proof.
  intros d s env.
  apply (stateWaitResponse_update_persist_notify env s d); reflexivity.
Defined.

(** C5.  An empty payload delivered in [stateWaitResponse], followed by a
    tick, leaves the engine in [stateWaitRetry]: no callback, no [save()],
    [lastCheck] as before.  A tick in [stateWaitResponse] with no response
    and 15000 ms or more since the request does the same. *)
Theorem empty_response_or_timeout_retries
  (env : Env) (s : DeviceNameHelper) (d : DeviceNameHelperData) :
  stateHandler s = Some WaitResponse ->
  data s = Some d ->
  (forall eventData,
     strlen eventData = 0%nat ->
     exists d1,
       run [CallSubscriptionHandler eventData; CallLoop env] s =
         Ok tt
           (with_stateTime (millis env)
              (with_stateHandler (Some WaitRetry)
                 (with_gotResponse true (with_data (Some d1) s)))) [] /\
       lastCheck d1 = lastCheck d /\ cstr (name d1) = []) /\
  (gotResponse s = false ->
   RESPONSE_WAIT_MS <= elapsed env s ->
   loop env s =
     Ok tt (with_stateTime (millis env) (with_stateHandler (Some WaitRetry) s))
       []).
Proof.
  intros Hh Hd. split.
  - intros eventData He.
    exists (set_name (strcpy (name d) eventData) d).
    assert (Hc : cstr eventData = [])
      by (apply length_zero_iff_nil; rewrite length_cstr; exact He).
    split; [|split; [reflexivity|]].
    + open_engine s. engine_unfold. rewrite He.
      cbn [Nat.ltb Nat.leb DEVICENAMEHELPER_MAX_NAME_LEN].
      unfold name_set, strcpy, overwrite. rewrite Hc.
      reflexivity.
    + cbn [name set_name]. unfold strcpy, overwrite. rewrite Hc.
      reflexivity.
  - intros Hg Hwait. open_engine s. engine_unfold.
    apply Z.leb_le in Hwait. rewrite Hwait. reflexivity.
Qed.

(** An engine waiting since tick 2000, seen again at tick 17000. *)
Lemma empty_response_or_timeout_retries_witness :
  let s := mkEngine (Some memset_zero) 0 (Some 7%nat) (Some WaitResponse)
             2000 true false false in
  let env := mkEnv 17000 true true 1000 in
  (forall eventData,
     strlen eventData = 0%nat ->
     exists d1,
       run [CallSubscriptionHandler eventData; CallLoop env] s =
         Ok tt
           (with_stateTime (millis env)
              (with_stateHandler (Some WaitRetry)
                 (with_gotResponse true (with_data (Some d1) s)))) [] /\
       lastCheck d1 = lastCheck memset_zero /\ cstr (name d1) = []) /\
  (gotResponse s = false ->
   RESPONSE_WAIT_MS <= elapsed env s ->
   loop env s =
     Ok tt (with_stateTime (millis env) (with_stateHandler (Some WaitRetry) s))
       []).
Proof.
  intros s env.
  apply (empty_response_or_timeout_retries env s memset_zero); reflexivity.
Defined.

(** A buffer that holds a terminated string is that string, its NUL and
    what lies behind. *)
Lemma terminated_string_shape (buf : list byte) :
  terminated buf ->
  buf = cstr buf ++ x00 :: skipn (S (strlen buf)) buf.
Proof.
  unfold terminated. induction buf as [|b t IH]; cbn [strlen cstr length].
  - intros H. inversion H.
  - destruct (is_nul b) eqn:E; intros H.
    + apply is_nul_true in E. subst b. reflexivity.
    + cbn [app]. change (skipn (S (S (strlen t))) (b :: t))
        with (skipn (S (strlen t)) t).
      rewrite <- IH by lia. reflexivity.
Qed.

(** C8.  The tick in [stateStart]: with a non-empty name in the record
    ([name[0]] not NUL) the name callback, if registered, is called once,
    on [data->name], and the handler becomes [stateWaitRecheck]; nothing is
    subscribed or published.  When the name buffer holds a terminated
    string, that string is what the callback is given.  With an empty name
    the handler becomes [stateSubscribe] and nothing is called. *)
Theorem stateStart_uses_saved_name
  (env : Env) (s : DeviceNameHelper) (d : DeviceNameHelperData) :
  stateHandler s = Some Start ->
  data s = Some d ->
  (name_set d = true ->
   (exists out,
      loop env s =
        Ok tt
          (with_stateTime (millis env)
             (with_stateHandler (Some WaitRecheck) s)) out /\
      filter is_subscribe out = [] /\
      filter is_publish out = [] /\
      match nameCallback s with
      | Some f => exists arg, out = [EvNameCallback f arg]
      | None => out = []
      end) /\
   (terminated (name d) ->
    name d = cstr (name d) ++ x00 :: skipn (S (strlen (name d))) (name d) /\
    loop env s =
      Ok tt
        (with_stateTime (millis env) (with_stateHandler (Some WaitRecheck) s))
        match nameCallback s with
        | Some f => [EvNameCallback f (cstr (name d))]
        | None => []
        end)) /\
  (name_set d = false ->
   loop env s = Ok tt (with_stateHandler (Some Subscribe) s) []).
Proof.
  intros Hh Hd. split; intros Hn.
  - assert (E : loop env s =
      Ok tt
        (with_stateTime (millis env) (with_stateHandler (Some WaitRecheck) s))
        match nameCallback s with
        | Some f => [EvNameCallback f (cstr (name d))]
        | None => []
        end).
    { open_engine s. engine_unfold. rewrite Hn. destruct cb; reflexivity. }
    split.
    + eexists. split; [exact E|].
      destruct (nameCallback s) as [f|]; repeat split.
      exists (cstr (name d)). reflexivity.
    + intros Ht. split; [now apply terminated_string_shape | exact E].
  - open_engine s. engine_unfold. rewrite Hn. reflexivity.
Qed.

(** A record holding "myroom", terminated, right after [setup()], with
    callback 7 registered. *)
Lemma stateStart_uses_saved_name_witness :
  let d := set_name (String.list_byte_of_string "myroom" ++ repeat x00 26)
             (validate memset_zero) in
  let s := mkEngine (Some d) 0 (Some 7%nat) (Some Start) 0 false false false in
  let env := mkEnv 5 false false 0 in
  name_set d = true /\
  terminated (name d) /\
  loop env s =
    Ok tt
      (with_stateTime (millis env) (with_stateHandler (Some WaitRecheck) s))
      [EvNameCallback 7%nat (String.list_byte_of_string "myroom")].
Proof.
  intros d s env.
  assert (Ht : terminated (name d)) by (unfold terminated; cbn; lia).
  split; [reflexivity|]. split; [exact Ht|].
  destruct (proj1 (stateStart_uses_saved_name env s d eq_refl eq_refl)
              eq_refl) as [_ Hterm].
  destruct (Hterm Ht) as [_ E].
  exact E.
Defined.

(** ** The recheck period *)

Lemma wrap_s64_small (z : Z) : - 2 ^ 63 <= z < 2 ^ 63 -> wrap_s64 z = z.
Proof.
  intros H. unfold wrap_s64.
  rewrite Z.mod_small by lia. lia.
Qed.

(** C4, as the code has it.  In [stateWaitRecheck] with a period [D > 0],
    a valid clock and no overflow of [lastCheck + D]: an evaluation (10000 ms
    or more after the previous one) goes to [stateSubscribe] when
    [lastCheck + D < Time.now()]; at the instant [Time.now() = lastCheck + D]
    with no forced check it stays in [stateWaitRecheck]; a tick less than
    10000 ms after the previous evaluation does nothing. *)
Theorem stateWaitRecheck_period_elapsed
  (env : Env) (s : DeviceNameHelper) (d : DeviceNameHelperData) :
  stateHandler s = Some WaitRecheck ->
  data s = Some d ->
  0 < checkPeriod s ->
  - 2 ^ 63 <= lastCheck d + checkPeriod s < 2 ^ 63 ->
  Time_isValid env = true ->
  (10000 <= elapsed env s ->
   lastCheck d + checkPeriod s < Time_now env ->
   loop env s =
     Ok tt
       (with_stateHandler (Some Subscribe)
          (with_forceCheck false (with_stateTime (millis env) s))) []) /\
  (10000 <= elapsed env s ->
   Time_now env = lastCheck d + checkPeriod s ->
   forceCheck s = false ->
   loop env s = Ok tt (with_stateTime (millis env) s) []) /\
  (elapsed env s < 10000 -> loop env s = Ok tt s []).
Proof.
  intros Hh Hd HD Hrange Hvalid.
  pose proof (wrap_s64_small _ Hrange) as Hw.
  open_engine s. split; [|split].
  - intros Hel Hlate. engine_unfold.
    apply Z.ltb_ge in Hel. rewrite Hel.
    destruct fc; [reflexivity|].
    destruct (Z.eqb_spec cp 0) as [->|_]; [lia|].
    rewrite Hvalid, Hw.
    apply Z.ltb_lt in Hlate. rewrite Hlate. reflexivity.
  - intros Hel Hnow ->. engine_unfold.
    apply Z.ltb_ge in Hel. rewrite Hel.
    destruct (Z.eqb_spec cp 0) as [->|_]; [lia|].
    rewrite Hvalid, Hw, Hnow, Z.ltb_irrefl. reflexivity.
  - intros Hel. engine_unfold.
    apply Z.ltb_lt in Hel. rewrite Hel. reflexivity.
Qed.

(** A two-minute period, last check at epoch 1000. *)
Lemma stateWaitRecheck_period_elapsed_witness :
  let d := set_lastCheck 1000 (validate memset_zero) in
  let s := mkEngine (Some d) 120 None (Some WaitRecheck) 0 true true false in
  let env := mkEnv 10000 true true 1121 in
  (10000 <= elapsed env s ->
   lastCheck d + checkPeriod s < Time_now env ->
   loop env s =
     Ok tt
       (with_stateHandler (Some Subscribe)
          (with_forceCheck false (with_stateTime (millis env) s))) []) /\
  (10000 <= elapsed env s ->
   Time_now env = lastCheck d + checkPeriod s ->
   forceCheck s = false ->
   loop env s = Ok tt (with_stateTime (millis env) s) []) /\
  (elapsed env s < 10000 -> loop env s = Ok tt s []).
Proof.
  intros d s env.
  apply (stateWaitRecheck_period_elapsed env s d);
    try reflexivity; vm_compute; split; congruence.
Defined.

(** The boundary instant itself: period 10, last check at epoch 100, a
    valid clock reading exactly 110 and an evaluation due.  Every premise
    of "[now >= lastCheck + D] leads to [stateSubscribe]" holds, and the
    engine stays in [stateWaitRecheck]. *)
Lemma recheck_at_boundary_counterexample :
  let d := set_lastCheck 100 (validate memset_zero) in
  let s := mkEngine (Some d) 10 None (Some WaitRecheck) 0 true true false in
  let env := mkEnv 10000 true true 110 in
  checkPeriod s > 0 /\
  stateHandler s = Some WaitRecheck /\
  Time_isValid env = true /\
  Time_now env >= lastCheck d + checkPeriod s /\
  10000 <= elapsed env s /\
  loop env s = Ok tt (with_stateTime 10000 s) [] /\
  ~ (exists s' out,
       loop env s = Ok tt s' out /\ stateHandler s' = Some Subscribe).
Proof.
  intros d s env.
  assert (E : loop env s = Ok tt (with_stateTime 10000 s) [])
    by (vm_compute; reflexivity).
  repeat split; try (vm_compute; congruence); try exact E.
  intros (s' & out & Hrun & Hs').
  rewrite E in Hrun. inversion Hrun; subst s'. discriminate Hs'.
Qed.

(** ** Whole executions *)

Ltac engine_cases :=
  engine_unfold; repeat (split_test; engine_unfold).

(** Once [setup()] has run, no call runs into a null [data]. *)
Lemma call_defined (c : Call) (s : DeviceNameHelper) :
  data s <> None ->
  exists s' out, call c s = Ok tt s' out /\ data s' <> None.
Proof.
  intros Hd. open_engine s.
  destruct dt as [d|]; [clear Hd | now elim Hd].
  destruct c as [env|raw|f|p| | |ev]; [destruct sh as [[]|]| | | | | |];
    engine_cases; eexists; eexists; (split; [reflexivity | discriminate]).
Qed.

Lemma run_defined (cs : list Call) (s : DeviceNameHelper) :
  data s <> None ->
  exists s' out, run cs s = Ok tt s' out /\ data s' <> None.
Proof.
  revert s. induction cs as [|c rest IH]; intros s Hd.
  - exists s, []. split; [reflexivity | assumption].
  - destruct (call_defined c s Hd) as (s1 & o1 & E1 & Hd1).
    destruct (IH s1 Hd1) as (s2 & o2 & E2 & Hd2).
    exists s2, (o1 ++ o2). split; [|assumption].
    cbn [run]. unfold bind. rewrite E1, E2. reflexivity.
Qed.

(** The events of a sequence of calls are those of its first call followed
    by those of the rest. *)
Lemma run_cons (c : Call) (rest : list Call) (s s1 s2 : DeviceNameHelper)
  (o1 o2 : list Event) :
  call c s = Ok tt s1 o1 -> run rest s1 = Ok tt s2 o2 ->
  run (c :: rest) s = Ok tt s2 (o1 ++ o2).
Proof.
  intros E1 E2. cbn [run]. unfold bind. rewrite E1, E2. reflexivity.
Qed.

(** *** The idle engine *)

Lemma idle_call (c : Call) (s : DeviceNameHelper) :
  leaves_idle c = true ->
  stateHandler s = None ->
  data s <> None ->
  exists s',
    call c s = Ok tt s' [] /\ stateHandler s' = None /\ data s' <> None.
Proof.
  intros Hc Hh Hd. open_engine s.
  destruct dt as [d|]; [clear Hd | now elim Hd].
  destruct c as [env|raw|f|p| | |ev]; try discriminate Hc;
    engine_cases; eexists; (split; [reflexivity | split; [reflexivity | discriminate]]).
Qed.

Lemma idle_run (cs : list Call) :
  forallb leaves_idle cs = true ->
  forall s,
    stateHandler s = None ->
    data s <> None ->
    exists s',
      run cs s = Ok tt s' [] /\ stateHandler s' = None /\ data s' <> None.
Proof.
  induction cs as [|c rest IH]; intros Hcs s Hh Hd.
  - exists s. repeat split; assumption.
  - cbn [forallb] in Hcs. apply andb_true_iff in Hcs as [Hc Hrest].
    destruct (idle_call c s Hc Hh Hd) as (s1 & E1 & Hh1 & Hd1).
    destruct (IH Hrest s1 Hh1 Hd1) as (s2 & E2 & Hh2 & Hd2).
    exists s2. split; [|split; assumption].
    apply (run_cons c rest s s1 s2 [] [] E1 E2).
Qed.

(** C6.  With a check period of 0 and no forced check pending: a tick that
    completes a fetch goes to [stateWaitRecheck], and the evaluation 10000 ms
    or more later clears the state handler, without subscribing or publishing;
    with a null state handler a tick changes nothing and causes nothing, and
    no sequence of calls other than [checkName()] (and [setup()]) causes any
    event or sets a handler again. *)
Theorem recheck_disabled_goes_idle
  (env1 env2 : Env) (s : DeviceNameHelper) (d : DeviceNameHelperData) :
  data s = Some d ->
  (stateHandler s = Some WaitResponse ->
   gotResponse s = true -> name_set d = true ->
   checkPeriod s = 0 -> forceCheck s = false ->
   10000 <= wrap_u32 (millis env2 - millis env1) ->
   exists s2 out,
     run [CallLoop env1; CallLoop env2] s = Ok tt s2 out /\
     stateHandler s2 = None /\
     filter is_subscribe out = [] /\ filter is_publish out = []) /\
  (stateHandler s = Some WaitRecheck ->
   checkPeriod s = 0 -> forceCheck s = false ->
   10000 <= elapsed env2 s ->
   loop env2 s =
     Ok tt (with_stateHandler None (with_stateTime (millis env2) s)) []) /\
  (stateHandler s = None ->
   (forall env, loop env s = Ok tt s []) /\
   (forall cs,
      forallb leaves_idle cs = true ->
      exists s',
        run cs s = Ok tt s' [] /\ stateHandler s' = None)).
Proof.
  intros Hd. split; [|split].
  - intros Hh Hg Hn Hcp Hfc Hel. open_engine s.
    apply Z.ltb_ge in Hel.
    engine_unfold. rewrite Hn.
    destruct cb; engine_unfold; unfold elapsed; engine_unfold;
      rewrite Hel; engine_unfold; cbn [Z.eqb];
      eexists; eexists; repeat split; reflexivity.
  - intros Hh Hcp Hfc Hel. open_engine s. engine_unfold.
    apply Z.ltb_ge in Hel. rewrite Hel. reflexivity.
  - intros Hh. split.
    + intros env. open_engine s. reflexivity.
    + intros cs Hcs.
      destruct (idle_run cs Hcs s Hh) as (s' & E & Hh' & _);
        [rewrite Hd; discriminate|].
      exists s'. split; assumption.
Qed.

(** A fetch completed at tick 3000 and the evaluation at tick 13000. *)
Lemma recheck_disabled_goes_idle_witness :
  let d := set_name (String.list_byte_of_string "myroom" ++ repeat x00 26)
             (validate memset_zero) in
  let s := mkEngine (Some d) 0 (Some 7%nat) (Some WaitResponse) 2000
             true true false in
  let env1 := mkEnv 3000 true true 1000 in
  let env2 := mkEnv 13000 true true 1010 in
  (stateHandler s = Some WaitResponse ->
   gotResponse s = true -> name_set d = true ->
   checkPeriod s = 0 -> forceCheck s = false ->
   10000 <= wrap_u32 (millis env2 - millis env1) ->
   exists s2 out,
     run [CallLoop env1; CallLoop env2] s = Ok tt s2 out /\
     stateHandler s2 = None /\
     filter is_subscribe out = [] /\ filter is_publish out = []) /\
  (stateHandler s = Some WaitRecheck ->
   checkPeriod s = 0 -> forceCheck s = false ->
   10000 <= elapsed env2 s ->
   loop env2 s =
     Ok tt (with_stateHandler None (with_stateTime (millis env2) s)) []) /\
  (stateHandler s = None ->
   (forall env, loop env s = Ok tt s []) /\
   (forall cs,
      forallb leaves_idle cs = true ->
      exists s',
        run cs s = Ok tt s' [] /\ stateHandler s' = None)).
Proof.
  intros d s env1 env2.
  apply (recheck_disabled_goes_idle env1 env2 s d); reflexivity.
Defined.

(** *** Forced checks *)

(** Every handler but [stateWaitRecheck] neither reads nor writes
    [forceCheck]. *)
Lemma dispatch_ignores_forceCheck
  (h : Handler) (env : Env) (s : DeviceNameHelper) (b : bool) :
  h <> WaitRecheck ->
  dispatch h env (with_forceCheck b s) =
  on_final (with_forceCheck b) (dispatch h env s).
Proof.
  intros Hh. open_engine s.
  destruct h; try (now elim Hh);
    engine_unfold; unfold elapsed; engine_cases; reflexivity.
Qed.

(** C7.  [checkName()] with a null state handler sets the handler to
    [stateSubscribe], which the next tick runs; with a handler set it only
    raises [forceCheck].  No handler but [stateWaitRecheck] reads or writes
    the flag, and [stateWaitRecheck] leaves it alone until 10000 ms have
    passed; the evaluation then clears it and goes to [stateSubscribe],
    whatever the check period. *)
Theorem checkName_forces_recheck (env : Env) (s : DeviceNameHelper) :
  (stateHandler s = None ->
   checkName s = Ok tt (with_stateHandler (Some Subscribe) s) [] /\
   run [CallCheckName; CallLoop env] s =
     Ok tt
       (with_stateHandler (Some WaitConnected) (with_hasSubscribed true s))
       (if hasSubscribed s then [] else [EvSubscribe device_name_topic])) /\
  (forall h,
     stateHandler s = Some h ->
     checkName s = Ok tt (with_forceCheck true s) [] /\
     stateHandler (with_forceCheck true s) = Some h) /\
  (forall h b,
     h <> WaitRecheck ->
     dispatch h env (with_forceCheck b s) =
     on_final (with_forceCheck b) (dispatch h env s)) /\
  (elapsed env s < 10000 ->
   forall b,
     stateWaitRecheck env (with_forceCheck b s) =
       Ok tt (with_forceCheck b s) []) /\
  (stateHandler s = Some WaitRecheck ->
   forceCheck s = true ->
   10000 <= elapsed env s ->
   loop env s =
     Ok tt
       (with_stateHandler (Some Subscribe)
          (with_forceCheck false (with_stateTime (millis env) s))) []).
Proof.
  split; [|split; [|split; [|split]]].
  - intros Hh. open_engine s. split; [reflexivity|].
    destruct hs; reflexivity.
  - intros h Hh. open_engine s. split; reflexivity.
  - intros h b Hh. now apply dispatch_ignores_forceCheck.
  - intros Hel b. open_engine s.
    engine_unfold. unfold elapsed in *. engine_unfold.
    cbn [stateTime] in Hel.
    apply Z.ltb_lt in Hel. rewrite Hel. reflexivity.
  - intros Hh Hf Hel. open_engine s. engine_unfold.
    apply Z.ltb_ge in Hel. rewrite Hel. reflexivity.
Qed.

(** *** Subscriptions *)

Lemma count_subscribe_app (o1 o2 : list Event) :
  count_subscribe (o1 ++ o2) = (count_subscribe o1 + count_subscribe o2)%nat.
Proof. unfold count_subscribe. now rewrite filter_app, length_app. Qed.

Lemma call_subscribe_budget (c : Call) (s s' : DeviceNameHelper)
  (out : list Event) :
  keeps_subscription c = true ->
  call c s = Ok tt s' out ->
  (count_subscribe out + subscriptions_left s' <= subscriptions_left s)%nat.
Proof.
  intros Hc. open_engine s. unfold subscriptions_left.
  destruct c as [env|raw|f|p| | |ev]; try discriminate Hc;
    [destruct sh as [[]|]| | | | |];
    engine_cases; intros Hrun; inversion Hrun; subst;
    cbn [hasSubscribed count_subscribe filter is_subscribe length];
    try destruct hs; cbn; lia.
Qed.

Lemma run_subscribe_budget (cs : list Call) :
  forallb keeps_subscription cs = true ->
  forall s s' out,
    run cs s = Ok tt s' out ->
    (count_subscribe out + subscriptions_left s' <= subscriptions_left s)%nat.
Proof.
  induction cs as [|c rest IH]; intros Hcs s s' out Hrun.
  - inversion Hrun; subst. cbn. lia.
  - cbn [forallb] in Hcs. apply andb_true_iff in Hcs as [Hc Hrest].
    cbn [run] in Hrun. unfold bind in Hrun.
    destruct (call c s) as [|[] s1 o1] eqn:E1; [discriminate|].
    destruct (run rest s1) as [|[] s2 o2] eqn:E2; [discriminate|].
    inversion Hrun; subst.
    pose proof (call_subscribe_budget c s s1 o1 Hc E1).
    pose proof (IH Hrest s1 s' o2 E2).
    rewrite count_subscribe_app. lia.
Qed.

(** C9.  Over any sequence of calls without [subscriptionRemoved()], from
    any state of the object (the constructed one, the one [setup()] leaves,
    the one a [subscriptionRemoved()] leaves), [Particle.subscribe] is called
    at most once, and not at all when [hasSubscribed] is already set, however
    often [stateSubscribe] runs; once [setup()] has run such a sequence always
    runs to its end.  A tick in [stateSubscribe] with the flag set subscribes
    nothing; [subscriptionRemoved()] clears the flag, and the next tick in
    [stateSubscribe] subscribes again. *)
Theorem subscribe_at_most_once (cs : list Call) (s : DeviceNameHelper) :
  forallb keeps_subscription cs = true ->
  (count_subscribe (events (run cs s)) <= 1)%nat /\
  (hasSubscribed s = true -> count_subscribe (events (run cs s)) = 0%nat) /\
  (data s <> None -> exists s' out, run cs s = Ok tt s' out) /\
  (forall env,
     stateHandler s = Some Subscribe -> hasSubscribed s = true ->
     loop env s = Ok tt (with_stateHandler (Some WaitConnected) s) []) /\
  subscriptionRemoved s = Ok tt (with_hasSubscribed false s) [] /\
  (forall env,
     stateHandler s = Some Subscribe ->
     run [CallSubscriptionRemoved; CallLoop env] s =
       Ok tt
         (with_stateHandler (Some WaitConnected) (with_hasSubscribed true s))
         [EvSubscribe device_name_topic]).
Proof.
  intros Hcs.
  assert (Hbudget :
    (count_subscribe (events (run cs s)) <= subscriptions_left s)%nat).
  { destruct (run cs s) as [|[] s' out] eqn:E; cbn [events].
    - cbn. lia.
    - pose proof (run_subscribe_budget cs Hcs s s' out E). lia. }
  unfold subscriptions_left in Hbudget.
  split; [|split; [|split; [|split; [|split]]]].
  - destruct (hasSubscribed s); lia.
  - intros Hs. rewrite Hs in Hbudget. lia.
  - intros Hd. destruct (run_defined cs s Hd) as (s' & out & E & _).
    exists s', out. exact E.
  - intros env Hh Hs. open_engine s. reflexivity.
  - open_engine s. reflexivity.
  - intros env Hh. open_engine s. reflexivity.
Qed.

(** An engine set up on an empty record and ticked through [stateStart]
    and [stateSubscribe], with a [checkName()] while it waits for the
    cloud: one subscription. *)
Lemma subscribe_at_most_once_witness :
  let env := mkEnv 0 false false 0 in
  let cs := [CallSetup memset_zero; CallLoop env; CallLoop env;
             CallCheckName; CallLoop env; CallLoop env] in
  let s := constructed in
  (count_subscribe (events (run cs s)) <= 1)%nat /\
  (hasSubscribed s = true -> count_subscribe (events (run cs s)) = 0%nat) /\
  (data s <> None -> exists s' out, run cs s = Ok tt s' out) /\
  (forall env,
     stateHandler s = Some Subscribe -> hasSubscribed s = true ->
     loop env s = Ok tt (with_stateHandler (Some WaitConnected) s) []) /\
  subscriptionRemoved s = Ok tt (with_hasSubscribed false s) [] /\
  (forall env,
     stateHandler s = Some Subscribe ->
     run [CallSubscriptionRemoved; CallLoop env] s =
       Ok tt
         (with_stateHandler (Some WaitConnected) (with_hasSubscribed true s))
         [EvSubscribe device_name_topic]).
Proof.
  intros env cs s.
  apply (subscribe_at_most_once cs s). reflexivity.
Defined.

(** *** The name buffer keeps its size *)

Lemma subscriptionHandler_well_sized
  (eventData : list byte) (s s' : DeviceNameHelper) (out : list Event) :
  record_well_sized s ->
  subscriptionHandler eventData s = Ok tt s' out ->
  record_well_sized s'.
Proof.
  unfold record_well_sized. intros Hwf. open_engine s.
  destruct dt as [d|]; engine_unfold;
    destruct (Nat.ltb_spec (strlen eventData) DEVICENAMEHELPER_MAX_NAME_LEN)
      as [Hshort | Hlong];
    intros Hrun; inversion Hrun; subst; cbn [data]; unfold well_sized;
    cbn [name set_name].
  - now destruct (stored_name_short (name d) eventData Hwf Hshort).
  - rewrite (stored_name_long (name d) eventData Hwf Hlong).
    rewrite length_app, length_firstn, length_cstr, Nat.min_l by assumption.
    reflexivity.
Qed.

Lemma call_well_sized (c : Call) (s s' : DeviceNameHelper) (out : list Event) :
  setup_well_sized c ->
  record_well_sized s ->
  call c s = Ok tt s' out ->
  record_well_sized s'.
Proof.
  intros Hc Hwf.
  destruct c as [env|raw|f|p| | |ev].
  - unfold record_well_sized in *. open_engine s.
    destruct sh as [[]|]; engine_cases;
      intros Hrun; inversion Hrun; subst; cbn [data]; assumption.
  - unfold record_well_sized. open_engine s. engine_unfold.
    intros Hrun; inversion Hrun; subst; cbn [data].
    now apply validate_well_sized.
  - unfold record_well_sized in *. open_engine s. engine_unfold.
    intros Hrun; inversion Hrun; subst; assumption.
  - unfold record_well_sized in *. open_engine s. engine_unfold.
    intros Hrun; inversion Hrun; subst; assumption.
  - unfold record_well_sized in *. open_engine s. engine_cases;
      intros Hrun; inversion Hrun; subst; assumption.
  - unfold record_well_sized in *. open_engine s. engine_unfold.
    intros Hrun; inversion Hrun; subst; assumption.
  - now apply subscriptionHandler_well_sized.
Qed.

Lemma run_well_sized (cs : list Call) :
  Forall setup_well_sized cs ->
  forall s s' out,
    record_well_sized s ->
    run cs s = Ok tt s' out ->
    record_well_sized s'.
Proof.
  induction 1 as [|c rest Hc _ IH]; intros s s' out Hwf Hrun.
  - inversion Hrun; subst; assumption.
  - cbn [run] in Hrun. unfold bind in Hrun.
    destruct (call c s) as [|[] s1 o1] eqn:E1; [discriminate|].
    destruct (run rest s1) as [|[] s2 o2] eqn:E2; [discriminate|].
    inversion Hrun; subst.
    eapply IH; [eapply call_well_sized; eassumption | eassumption].
Qed.

(** *** A complete fetch *)

(** From zeroed storage: the engine waits in [stateWaitConnected] while the
    cloud is away, publishes the request 2000 ms after connecting, takes the
    answer "myroom", saves the record, calls the callback and, with no
    check period, ends idle. *)
Example fetch_from_zeroed_storage :
  let offline := mkEnv 100 false false 0 in
  let online t := mkEnv t true true 1700000000 in
  let o :=
    run [CallWithNameCallback (Some 7%nat); CallSetup memset_zero;
         CallLoop offline; CallLoop offline; CallLoop offline;
         CallLoop offline; CallLoop (online 500); CallLoop (online 1500);
         CallLoop (online 2500);
         CallSubscriptionHandler (String.list_byte_of_string "myroom");
         CallLoop (online 2600); CallLoop (online 9000);
         CallLoop (online 12600)] constructed in
  exists s' saved,
    o = Ok tt s'
          [EvSubscribe device_name_topic; EvPublish device_name_topic;
           EvSave (Some saved);
           EvNameCallback 7%nat (String.list_byte_of_string "myroom")] /\
    cstr (name saved) = String.list_byte_of_string "myroom" /\
    lastCheck saved = 1700000000 /\
    data s' = Some saved /\
    stateHandler s' = None /\
    hasName s' = true /\
    string_at (getName s') = Some (String.list_byte_of_string "myroom") /\
    getLastNameCheckTime s' = 1700000000.
Proof.
  intros offline online o. subst o.
  eexists. eexists. split; [vm_compute; reflexivity|].
  repeat split.
Qed.

(** While the cloud is away nothing but the subscription happens. *)
Example offline_stays_in_WaitConnected (n : nat) :
  let offline := mkEnv 100 false false 0 in
  let s := with_hasSubscribed true
             (with_stateHandler (Some WaitConnected)
                (with_data (Some (validate memset_zero)) constructed)) in
  run (repeat (CallLoop offline) n) s = Ok tt s [].
Proof.
  intros offline s. induction n as [|n IH]; [reflexivity|].
  cbn [repeat]. apply (run_cons _ _ s s s [] []); [reflexivity | exact IH].
Qed.

(** * Further properties of the engine *)

(** ** Invariants of executions *)

Lemma run_cons_inv (c : Call) (rest : list Call) (s s' : DeviceNameHelper)
  (out : list Event) :
  run (c :: rest) s = Ok tt s' out ->
  exists s1 o1 o2,
    call c s = Ok tt s1 o1 /\ run rest s1 = Ok tt s' o2 /\ out = o1 ++ o2.
Proof.
  cbn [run]. unfold bind. intros Hrun.
  destruct (call c s) as [|[] s1 o1] eqn:E1; [discriminate|].
  destruct (run rest s1) as [|[] s2 o2] eqn:E2; [discriminate|].
  inversion Hrun; subst. exists s1, o1, o2.
  split; [reflexivity | split; [assumption | reflexivity]].
Qed.

(** A property of the object kept by every admitted call, and a property of
    events true of what every such call emits, hold along any execution. *)
Lemma run_invariant
  (P : DeviceNameHelper -> Prop) (Q : Event -> Prop) (admitted : Call -> Prop) :
  (forall c s s' out,
     admitted c -> P s -> call c s = Ok tt s' out -> P s' /\ Forall Q out) ->
  forall cs, Forall admitted cs ->
  forall s s' out,
    P s -> run cs s = Ok tt s' out -> P s' /\ Forall Q out.
Proof.
  intros Hstep cs Hcs.
  induction Hcs as [|c rest Hc _ IH]; intros s s' out HP Hrun.
  - inversion Hrun; subst. split; [assumption | constructor].
  - apply run_cons_inv in Hrun as (s1 & o1 & o2 & E1 & E2 & ->).
    destruct (Hstep c s s1 o1 Hc HP E1) as [HP1 HQ1].
    destruct (IH s1 s' o2 HP1 E2) as [HP' HQ2].
    split; [assumption | apply Forall_app; split; assumption].
Qed.

Lemma Forall_any {A} (l : list A) : Forall (fun _ => True) l.
Proof. induction l; constructor; auto. Qed.

Lemma validate_valid (d : DeviceNameHelperData) :
  magic (validate d) = DATA_MAGIC /\
  size (validate d) = sizeof_DeviceNameHelperData.
Proof.
  unfold validate.
  destruct (magic d =? DATA_MAGIC) eqn:Em;
    destruct (size d =? sizeof_DeviceNameHelperData) eqn:Es;
    cbn [negb orb]; try (split; reflexivity).
  apply Z.eqb_eq in Em, Es. split; assumption.
Qed.

Lemma name_set_cstr (d : DeviceNameHelperData) :
  name_set d = true <-> cstr (name d) <> [].
Proof.
  unfold name_set. rewrite negb_true_iff. split.
  - intros Hn Hnil. apply cstr_nil_load in Hnil. congruence.
  - intros Hne. destruct (is_nul (load (name d) 0)) eqn:E; [|reflexivity].
    apply cstr_nil_load in E. contradiction.
Qed.

Lemma setup_outcome (raw : DeviceNameHelperData) (s : DeviceNameHelper) :
  setup raw s =
    Ok tt (with_stateHandler (Some Start) (with_data (Some (validate raw)) s))
      [].
Proof. open_engine s. reflexivity. Qed.

Lemma call_record_valid (c : Call) (s s' : DeviceNameHelper)
  (out : list Event) :
  record_valid s -> call c s = Ok tt s' out -> record_valid s'.
Proof.
  intros Hv. destruct c as [env|raw|f|p| | |ev].
  - unfold record_valid in *. open_engine s.
    destruct sh as [[]|]; engine_cases;
      intros Hrun; inversion Hrun; subst; cbn [data]; assumption.
  - cbn [call]. rewrite setup_outcome. intros Hrun; inversion Hrun; subst.
    unfold record_valid. cbn. apply validate_valid.
  - unfold record_valid in *. open_engine s. engine_unfold.
    intros Hrun; inversion Hrun; subst; assumption.
  - unfold record_valid in *. open_engine s. engine_unfold.
    intros Hrun; inversion Hrun; subst; assumption.
  - unfold record_valid in *. open_engine s. engine_cases;
      intros Hrun; inversion Hrun; subst; assumption.
  - unfold record_valid in *. open_engine s. engine_unfold.
    intros Hrun; inversion Hrun; subst; assumption.
  - unfold record_valid in *. open_engine s. engine_cases;
      intros Hrun; inversion Hrun; subst; cbn [data]; assumption.
Qed.

Lemma run_record_valid (cs : list Call) (s s' : DeviceNameHelper)
  (out : list Event) :
  record_valid s -> run cs s = Ok tt s' out -> record_valid s'.
Proof.
  intros Hv Hrun.
  apply (run_invariant record_valid (fun _ => True) (fun _ => True))
    with (cs := cs) (s := s) (out := out); auto using Forall_any.
  intros c s0 s1 o _ Hv0 E. split; [|apply Forall_any].
  eapply call_record_valid; eassumption.
Qed.

Lemma after_setup_valid_helper
  (raw : DeviceNameHelperData) (cs : list Call) (s : DeviceNameHelper) :
  exists s' out d',
    run (CallSetup raw :: cs) s = Ok tt s' out /\
    data s' = Some d' /\
    magic d' = DATA_MAGIC /\ size d' = sizeof_DeviceNameHelperData.
Proof.
  pose proof (setup_outcome raw s) as E1.
  set (s1 := with_stateHandler (Some Start)
               (with_data (Some (validate raw)) s)) in *.
  assert (Hd1 : data s1 <> None) by (destruct s; discriminate).
  destruct (run_defined cs s1 Hd1) as (s' & out & E2 & Hd').
  destruct (data s') as [d'|] eqn:Ed; [|now elim Hd'].
  exists s', out, d'.
  split; [apply (run_cons (CallSetup raw) cs s s1 s' [] out E1 E2)|].
  split; [exact Ed|].
  assert (Hv : record_valid s').
  { apply (run_record_valid cs s1 s' out); [|assumption].
    unfold record_valid. destruct s; cbn. apply validate_valid. }
  unfold record_valid in Hv. rewrite Ed in Hv. exact Hv.
Qed.

(** X1.  Once [setup()] has run, whatever record it was given and whatever
    is called afterwards, every call returns (no null [data] is touched) and
    the record carries the current magic and size; it keeps its 32-byte name
    buffer when every record handed to [setup()] has one. *)
Theorem after_setup_record_valid
  (raw : DeviceNameHelperData) (cs : list Call) (s : DeviceNameHelper) :
  exists s' out d',
    run (CallSetup raw :: cs) s = Ok tt s' out /\
    data s' = Some d' /\
    magic d' = DATA_MAGIC /\ size d' = sizeof_DeviceNameHelperData /\
    (well_sized raw -> Forall setup_well_sized cs -> well_sized d').
Proof.
  pose proof (setup_outcome raw s) as E1.
  set (s1 := with_stateHandler (Some Start)
               (with_data (Some (validate raw)) s)) in *.
  assert (Hd1 : data s1 <> None) by (destruct s; discriminate).
  destruct (run_defined cs s1 Hd1) as (s' & out & E2 & Hd').
  destruct (data s') as [d'|] eqn:Ed; [|now elim Hd'].
  exists s', out, d'.
  split; [apply (run_cons (CallSetup raw) cs s s1 s' [] out E1 E2)|].
  split; [exact Ed|].
  assert (Hv : record_valid s').
  { apply (run_record_valid cs s1 s' out); [|assumption].
    unfold record_valid. destruct s; cbn. apply validate_valid. }
  unfold record_valid in Hv. rewrite Ed in Hv. destruct Hv as [Hm Hs].
  split; [assumption|]. split; [assumption|].
  intros Hraw Hcs.
  assert (Hw : record_well_sized s').
  { apply (run_well_sized cs Hcs s1 s' out); [|assumption].
    unfold record_well_sized. destruct s; cbn.
    now apply validate_well_sized. }
  unfold record_well_sized in Hw. now rewrite Ed in Hw.
Qed.

(** ** Which call writes which field *)

Lemma call_frame (c : Call) (s s' : DeviceNameHelper) (out : list Event)
  (d : DeviceNameHelperData) :
  is_setup c = false ->
  data s = Some d ->
  call c s = Ok tt s' out ->
  exists d',
    data s' = Some d' /\
    magic d' = magic d /\ size d' = size d /\
    flags d' = flags d /\ reserved d' = reserved d /\
    (is_response c = false -> name d' = name d) /\
    (filter is_save out = [] -> lastCheck d' = lastCheck d).
Proof.
  intros Hc Hd. open_engine s.
  destruct c as [env|raw|f|p| | |ev]; try discriminate Hc;
    [destruct sh as [[]|]| | | | |];
    engine_cases; intros Hrun; inversion Hrun; subst;
    eexists; (split; [reflexivity|]); cbn;
    repeat split; try reflexivity; try discriminate.
Qed.

(** X2.  Along any calls other than [setup()], on an object that has its
    record: every call returns, and [magic], [size], [flags] and [reserved]
    are left as they were; the name buffer changes only if a response was
    delivered; [lastCheck] changes only if [save()] was called. *)
Theorem record_frame
  (cs : list Call) (s : DeviceNameHelper) (d : DeviceNameHelperData) :
  data s = Some d ->
  forallb (fun c => negb (is_setup c)) cs = true ->
  exists s' out d',
    run cs s = Ok tt s' out /\
    data s' = Some d' /\
    magic d' = magic d /\ size d' = size d /\
    flags d' = flags d /\ reserved d' = reserved d /\
    (forallb (fun c => negb (is_response c)) cs = true -> name d' = name d) /\
    (filter is_save out = [] -> lastCheck d' = lastCheck d).
Proof.
  revert s d. induction cs as [|c rest IH]; intros s d Hd Hcs.
  - exists s, [], d. repeat split; auto.
  - cbn [forallb] in Hcs. apply andb_true_iff in Hcs as [Hc Hrest].
    apply negb_true_iff in Hc.
    destruct (call_defined c s) as (s1 & o1 & E1 & _);
      [rewrite Hd; discriminate|].
    destruct (call_frame c s s1 o1 d Hc Hd E1)
      as (d1 & Hd1 & Hm1 & Hs1 & Hf1 & Hr1 & Hn1 & Hl1).
    destruct (IH s1 d1 Hd1 Hrest)
      as (s' & o2 & d' & E2 & Hd' & Hm & Hs & Hf & Hr & Hn & Hl).
    exists s', (o1 ++ o2), d'.
    split; [apply (run_cons c rest s s1 s' o1 o2 E1 E2)|].
    split; [assumption|].
    repeat split; try congruence.
    + cbn [forallb]. intros Hq. apply andb_true_iff in Hq as [Hq1 Hq2].
      apply negb_true_iff in Hq1.
      rewrite (Hn Hq2). now apply Hn1.
    + rewrite filter_app. intros Hq. apply app_eq_nil in Hq as [Hq1 Hq2].
      rewrite (Hl Hq2). now apply Hl1.
Qed.

(** Ticks, a forced check and a change of period on a record that holds
    "myroom". *)
Lemma record_frame_witness :
  let d := set_name (String.list_byte_of_string "myroom" ++ repeat x00 26)
             (validate memset_zero) in
  let s := mkEngine (Some d) 0 None (Some Start) 0 false false false in
  let env := mkEnv 20000 true true 1700000000 in
  let cs := [CallLoop env; CallCheckName; CallWithCheckPeriod 60;
             CallLoop env] in
  exists s' out d',
    run cs s = Ok tt s' out /\
    data s' = Some d' /\
    magic d' = magic d /\ size d' = size d /\
    flags d' = flags d /\ reserved d' = reserved d /\
    (forallb (fun c => negb (is_response c)) cs = true -> name d' = name d) /\
    (filter is_save out = [] -> lastCheck d' = lastCheck d).
Proof.
  intros d s env cs.
  apply (record_frame cs s d); reflexivity.
Defined.

(** ** What the callback and [save()] are given *)

Lemma call_callback_named (c : Call) (s s' : DeviceNameHelper)
  (out : list Event) :
  call c s = Ok tt s' out -> Forall callback_named out.
Proof.
  open_engine s.
  destruct c as [env|raw|f|p| | |ev];
    [destruct sh as [[]|]| | | | | |];
    engine_cases; intros Hrun; inversion Hrun; subst;
    repeat constructor; cbn [callback_named name set_lastCheck];
    now apply name_set_cstr.
Qed.

(** X3.  In no execution, from no state, is the name callback called with
    an empty name. *)
Theorem callback_never_empty (cs : list Call) (s : DeviceNameHelper) :
  Forall callback_named (events (run cs s)).
Proof.
  destruct (run cs s) as [|[] s' out] eqn:E; cbn [events]; [constructor|].
  apply (run_invariant (fun _ => True) callback_named (fun _ => True))
    with (cs := cs) (s := s) (s' := s'); auto using Forall_any.
  intros c s0 s1 o _ _ Hc. split; [exact I|].
  eapply call_callback_named; eassumption.
Qed.

Lemma valid_named_restores (d : DeviceNameHelperData) :
  magic d = DATA_MAGIC -> size d = sizeof_DeviceNameHelperData ->
  name_set d = true ->
  restores_name d.
Proof.
  intros Hm Hs Hn cb env. engine_unfold.
  rewrite (validate_match d Hm Hs), Hn.
  destruct cb; reflexivity.
Qed.

Lemma call_saved_restores (c : Call) (s s' : DeviceNameHelper)
  (out : list Event) :
  record_valid s -> call c s = Ok tt s' out -> Forall saved_restores out.
Proof.
  unfold record_valid. intros Hv. open_engine s.
  destruct c as [env|raw|f|p| | |ev];
    [destruct sh as [[]|]| | | | | |];
    engine_cases; intros Hrun; inversion Hrun; subst;
    repeat constructor; cbn [saved_restores].
  all: destruct Hv as [Hm Hs];
    match goal with
    | Hn : name_set ?d = true |- _ =>
        exists (set_lastCheck (Time_now env) d);
        split; [reflexivity|];
        split; [now apply validate_match|];
        split; [now apply name_set_cstr | now apply valid_named_restores]
    end.
Qed.

(** X4.  After [setup()], in any execution: every record [save()] is
    called on passes the validation unchanged and holds a non-empty name,
    and a freshly constructed object set up on it calls the callback with
    that name in its first tick and goes to [stateWaitRecheck] without
    subscribing or publishing. *)
Theorem saved_record_restores_name
  (raw : DeviceNameHelperData) (cs : list Call) (s : DeviceNameHelper) :
  Forall saved_restores (events (run (CallSetup raw :: cs) s)).
Proof.
  destruct (run (CallSetup raw :: cs) s) as [|[] s' out] eqn:E;
    cbn [events]; [constructor|].
  apply run_cons_inv in E as (s1 & o1 & o2 & E1 & E2 & ->).
  cbn [call] in E1. rewrite setup_outcome in E1.
  inversion E1; subst. cbn [app].
  refine (proj2 (run_invariant record_valid saved_restores (fun _ => True)
                   _ cs (Forall_any cs) _ s' o2 _ E2)).
  - intros c s0 s1 o _ Hv Hc. split.
    + eapply call_record_valid; eassumption.
    + eapply call_saved_restores; eassumption.
  - unfold record_valid. destruct s; cbn. apply validate_valid.
Qed.

(** ** The request loop *)

Lemma call_request_pending (c : Call) (s : DeviceNameHelper) :
  no_response c = true ->
  request_pending s = true ->
  exists s' out,
    call c s = Ok tt s' out /\
    request_pending s' = true /\
    forallb is_publish out = true /\
    data s' = data s.
Proof.
  intros Hc Hp. open_engine s. unfold request_pending in *.
  cbn [stateHandler gotResponse] in Hp.
  destruct c as [env|raw|f|p| | |ev]; try discriminate Hc;
    destruct sh as [[]|]; try discriminate Hp;
    try (destruct gr; try discriminate Hp);
    engine_cases; eexists; eexists; repeat split.
Qed.

(** X5.  From the request loop ([stateWaitConnected], [stateWaitRequest],
    [stateWaitRetry], or [stateWaitResponse] with no response taken), as
    long as no response is delivered, no calls lead out of it: ticks,
    [checkName()], [subscriptionRemoved()] and the [with...] setters always
    return, leave the engine in the request loop and the record as it was,
    and cause nothing but publishes.  In particular nothing subscribes
    there, also not after [subscriptionRemoved()]. *)
Theorem request_loop_closed (cs : list Call) (s : DeviceNameHelper) :
  request_pending s = true ->
  forallb no_response cs = true ->
  exists s' out,
    run cs s = Ok tt s' out /\
    request_pending s' = true /\
    forallb is_publish out = true /\
    filter is_subscribe out = [] /\
    data s' = data s.
Proof.
  revert s. induction cs as [|c rest IH]; intros s Hp Hcs.
  - exists s, []. repeat split; assumption.
  - cbn [forallb] in Hcs. apply andb_true_iff in Hcs as [Hc Hrest].
    destruct (call_request_pending c s Hc Hp) as (s1 & o1 & E1 & Hp1 & Ho1 & Hd1).
    destruct (IH s1 Hp1 Hrest) as (s' & o2 & E2 & Hp' & Ho2 & Hs2 & Hd').
    exists s', (o1 ++ o2).
    split; [apply (run_cons c rest s s1 s' o1 o2 E1 E2)|].
    split; [assumption|].
    split; [rewrite forallb_app, Ho1, Ho2; reflexivity|].
    split; [|congruence].
    rewrite filter_app, Hs2, app_nil_r.
    clear - Ho1. induction o1 as [|e o1 IHo]; [reflexivity|].
    cbn [forallb] in Ho1. apply andb_true_iff in Ho1 as [He Ho1].
    destruct e; try discriminate He. cbn. now apply IHo.
Qed.

(** A subscription removed while waiting to retry: the request goes out
    again, the subscription does not. *)
Lemma request_loop_closed_witness :
  let s := mkEngine (Some (validate memset_zero)) 0 None (Some WaitRetry)
             1000 true false false in
  let cs := [CallSubscriptionRemoved; CallCheckName;
             CallLoop (mkEnv 301000 true true 1700000000);
             CallLoop (mkEnv 301010 true true 1700000000);
             CallLoop (mkEnv 303010 true true 1700000002)] in
  exists s' out,
    run cs s = Ok tt s' out /\
    request_pending s' = true /\
    forallb is_publish out = true /\
    filter is_subscribe out = [] /\
    data s' = data s.
Proof.
  intros s cs. apply (request_loop_closed cs s); reflexivity.
Defined.

(** X6.  From [stateSubscribe], a tick, a tick that finds the cloud
    connected and the time valid, and a tick 2000 ms or more after that one:
    the handler is subscribed unless it already was, the request is
    published once, [gotResponse] is cleared and the engine waits for the
    response from the time of the last tick. *)
Theorem fetch_cycle_publishes (e0 e1 e2 : Env) (s : DeviceNameHelper) :
  stateHandler s = Some Subscribe ->
  Particle_connected e1 = true ->
  Time_isValid e1 = true ->
  POST_CONNECT_WAIT_MS <= wrap_u32 (millis e2 - millis e1) ->
  run [CallLoop e0; CallLoop e1; CallLoop e2] s =
    Ok tt
      (with_stateTime (millis e2)
         (with_stateHandler (Some WaitResponse)
            (with_gotResponse false (with_hasSubscribed true s))))
      ((if hasSubscribed s then [] else [EvSubscribe device_name_topic]) ++
       [EvPublish device_name_topic]).
Proof.
  intros Hh Hc Hv Hw. open_engine s. apply Z.ltb_ge in Hw.
  destruct hs; engine_unfold; rewrite Hc, Hv; engine_unfold;
    unfold elapsed; engine_unfold; rewrite Hw; reflexivity.
Qed.

Lemma fetch_cycle_publishes_witness :
  let s := mkEngine (Some (validate memset_zero)) 0 None (Some Subscribe)
             0 false false false in
  let e0 := mkEnv 10 false false 0 in
  let e1 := mkEnv 500 true true 1700000000 in
  let e2 := mkEnv 2500 true true 1700000002 in
  run [CallLoop e0; CallLoop e1; CallLoop e2] s =
    Ok tt
      (with_stateTime (millis e2)
         (with_stateHandler (Some WaitResponse)
            (with_gotResponse false (with_hasSubscribed true s))))
      ((if hasSubscribed s then [] else [EvSubscribe device_name_topic]) ++
       [EvPublish device_name_topic]).
Proof.
  intros s e0 e1 e2.
  apply (fetch_cycle_publishes e0 e1 e2 s);
    first [reflexivity | vm_compute; congruence].
Defined.

(** X7.  From [stateWaitResponse] with no response: a tick 15000 ms or
    more after the request, a tick 5 minutes or more after that, a tick that
    finds the cloud connected and the time valid, and a tick 2000 ms or more
    after that one publish the request once more, and nothing else
    happens. *)
Theorem retry_cycle_republishes (e1 e2 e3 e4 : Env) (s : DeviceNameHelper) :
  stateHandler s = Some WaitResponse ->
  gotResponse s = false ->
  RESPONSE_WAIT_MS <= elapsed e1 s ->
  RETRY_WAIT_MS <= wrap_u32 (millis e2 - millis e1) ->
  Particle_connected e3 = true ->
  Time_isValid e3 = true ->
  POST_CONNECT_WAIT_MS <= wrap_u32 (millis e4 - millis e3) ->
  run [CallLoop e1; CallLoop e2; CallLoop e3; CallLoop e4] s =
    Ok tt (with_stateTime (millis e4) s) [EvPublish device_name_topic].
Proof.
  intros Hh Hg H1 H2 Hc Hv H4. open_engine s.
  apply Z.leb_le in H1, H2. apply Z.ltb_ge in H4.
  engine_unfold. rewrite H1. engine_unfold.
  unfold elapsed. engine_unfold. rewrite H2. engine_unfold.
  rewrite Hc, Hv. engine_unfold.
  unfold elapsed. engine_unfold. rewrite H4. reflexivity.
Qed.

Lemma retry_cycle_republishes_witness :
  let s := mkEngine (Some (validate memset_zero)) 0 None (Some WaitResponse)
             2500 true false false in
  let e1 := mkEnv 17500 true true 1700000017 in
  let e2 := mkEnv 317500 true true 1700000317 in
  let e3 := mkEnv 317510 true true 1700000317 in
  let e4 := mkEnv 319510 true true 1700000319 in
  run [CallLoop e1; CallLoop e2; CallLoop e3; CallLoop e4] s =
    Ok tt (with_stateTime (millis e4) s) [EvPublish device_name_topic].
Proof.
  intros s e1 e2 e3 e4.
  apply (retry_cycle_republishes e1 e2 e3 e4 s);
    first [reflexivity | vm_compute; congruence].
Defined.

(** ** Timers *)

Lemma elapsed_wraps (env : Env) (s : DeviceNameHelper) (delta : Z) :
  0 <= delta < 2 ^ 32 ->
  millis env = wrap_u32 (stateTime s + delta) ->
  elapsed env s = delta.
Proof.
  intros Hd Hm. unfold elapsed, wrap_u32 in *. rewrite Hm.
  rewrite Zminus_mod_idemp_l.
  replace (stateTime s + delta - stateTime s) with delta by lia.
  apply Z.mod_small. assumption.
Qed.

(** X8.  The waits are right across the roll-over of [millis()]: when the
    32-bit tick counter has advanced by [delta] since [stateTime], wrapping
    or not, the handlers measure [delta]; so a tick in [stateWaitRequest]
    publishes when [delta >= 2000] and does nothing before, and a tick in
    [stateWaitRetry] goes on when [delta >= 300000] and does nothing
    before. *)
Theorem waits_measure_across_rollover
  (env : Env) (s : DeviceNameHelper) (delta : Z) :
  0 <= delta < 2 ^ 32 ->
  millis env = wrap_u32 (stateTime s + delta) ->
  elapsed env s = delta /\
  (stateHandler s = Some WaitRequest ->
   (2000 <= delta ->
    loop env s =
      Ok tt
        (with_stateTime (millis env)
           (with_stateHandler (Some WaitResponse) (with_gotResponse false s)))
        [EvPublish device_name_topic]) /\
   (delta < 2000 -> loop env s = Ok tt s [])) /\
  (stateHandler s = Some WaitRetry ->
   (300000 <= delta ->
    loop env s = Ok tt (with_stateHandler (Some WaitConnected) s) []) /\
   (delta < 300000 -> loop env s = Ok tt s [])).
Proof.
  intros Hd Hm. pose proof (elapsed_wraps env s delta Hd Hm) as He.
  split; [assumption|]. split; intros Hh; split; intros Hdelta;
    rewrite <- He in Hdelta; clear He Hd Hm;
    open_engine s; engine_unfold.
  - apply Z.ltb_ge in Hdelta. unfold POST_CONNECT_WAIT_MS.
    rewrite Hdelta. reflexivity.
  - apply Z.ltb_lt in Hdelta. unfold POST_CONNECT_WAIT_MS.
    rewrite Hdelta. reflexivity.
  - apply Z.leb_le in Hdelta. unfold RETRY_WAIT_MS.
    change (5 * 60 * 1000) with 300000. rewrite Hdelta. reflexivity.
  - apply Z.leb_gt in Hdelta. unfold RETRY_WAIT_MS.
    change (5 * 60 * 1000) with 300000. rewrite Hdelta. reflexivity.
Qed.

(** A wait begun 1000 ms before the counter wraps, seen 1000 ms after. *)
Lemma waits_measure_across_rollover_witness :
  let s := mkEngine (Some (validate memset_zero)) 0 None (Some WaitRequest)
             (2 ^ 32 - 1000) true false false in
  let env := mkEnv 1000 true true 1700000000 in
  elapsed env s = 2000 /\
  (stateHandler s = Some WaitRequest ->
   (2000 <= 2000 ->
    loop env s =
      Ok tt
        (with_stateTime (millis env)
           (with_stateHandler (Some WaitResponse) (with_gotResponse false s)))
        [EvPublish device_name_topic]) /\
   (2000 < 2000 -> loop env s = Ok tt s [])) /\
  (stateHandler s = Some WaitRetry ->
   (300000 <= 2000 ->
    loop env s = Ok tt (with_stateHandler (Some WaitConnected) s) []) /\
   (2000 < 300000 -> loop env s = Ok tt s [])).
Proof.
  intros s env.
  apply (waits_measure_across_rollover env s 2000);
    [lia | vm_compute; reflexivity].
Defined.

Lemma still_waiting_tick (env : Env) (s : DeviceNameHelper) :
  still_waiting s env = true -> loop env s = Ok tt s [].
Proof.
  intros Hw. open_engine s. unfold still_waiting in Hw.
  cbn [stateHandler gotResponse] in Hw.
  destruct sh as [[]|]; try discriminate Hw; engine_unfold.
  - destruct (Particle_connected env), (Time_isValid env);
      try discriminate Hw; reflexivity.
  - rewrite Hw. reflexivity.
  - apply andb_true_iff in Hw as [Hg Hw]. apply negb_true_iff in Hg.
    subst gr. apply Z.ltb_lt in Hw.
    apply Z.leb_gt in Hw. rewrite Hw. reflexivity.
  - apply Z.ltb_lt in Hw. apply Z.leb_gt in Hw. rewrite Hw. reflexivity.
  - rewrite Hw. reflexivity.
  - reflexivity.
Qed.

(** X9.  [loop()] may be called at any cadence: any number of ticks that
    each fall within the current wait (cloud not connected or time not valid
    in [stateWaitConnected], less than 2000 ms in [stateWaitRequest], no
    response and less than 15000 ms in [stateWaitResponse], less than 5
    minutes in [stateWaitRetry], less than 10000 ms in [stateWaitRecheck],
    or no handler at all) leave the object exactly as it was and cause
    nothing. *)
Theorem polling_while_waiting_is_idle
  (envs : list Env) (s : DeviceNameHelper) :
  forallb (still_waiting s) envs = true ->
  run (map CallLoop envs) s = Ok tt s [].
Proof.
  induction envs as [|env rest IH]; intros Hw; [reflexivity|].
  cbn [forallb] in Hw. apply andb_true_iff in Hw as [Hw Hrest].
  cbn [map].
  apply (run_cons (CallLoop env) (map CallLoop rest) s s s [] []).
  - now apply still_waiting_tick.
  - now apply IH.
Qed.

Lemma polling_while_waiting_is_idle_witness :
  let s := mkEngine (Some (validate memset_zero)) 0 None (Some WaitRetry)
             1000 true false false in
  let envs := [mkEnv 1001 true true 0; mkEnv 1001 true true 0;
               mkEnv 200000 false true 5; mkEnv 300999 true true 9] in
  run (map CallLoop envs) s = Ok tt s [].
Proof.
  intros s envs. apply (polling_while_waiting_is_idle envs s). reflexivity.
Defined.

(** X10.  A response delivered while the engine is still in
    [stateWaitRequest] is not taken as the answer: the payload is stored
    (so [hasName()] may hold), but publishing the request clears
    [gotResponse], neither [save()] nor the callback is called, and 15000 ms
    later the engine goes to [stateWaitRetry]. *)
Theorem early_response_is_not_taken
  (e1 e2 : Env) (s : DeviceNameHelper) (d : DeviceNameHelperData)
  (eventData : list byte) :
  stateHandler s = Some WaitRequest ->
  data s = Some d ->
  POST_CONNECT_WAIT_MS <= elapsed e1 s ->
  RESPONSE_WAIT_MS <= wrap_u32 (millis e2 - millis e1) ->
  exists s1,
    subscriptionHandler eventData s = Ok tt s1 [] /\
    gotResponse s1 = true /\
    run [CallSubscriptionHandler eventData; CallLoop e1; CallLoop e2] s =
      Ok tt
        (with_stateTime (millis e2)
           (with_stateHandler (Some WaitRetry) (with_gotResponse false s1)))
        [EvPublish device_name_topic].
Proof.
  intros Hh Hd H1 H2. open_engine s.
  apply Z.ltb_ge in H1. apply Z.leb_le in H2.
  unfold elapsed in H1. cbn [stateTime] in H1.
  destruct (strlen eventData <? DEVICENAMEHELPER_MAX_NAME_LEN)%nat eqn:Hl;
    eexists; (split; [engine_unfold; rewrite Hl; reflexivity|]);
    (split; [reflexivity|]);
    engine_unfold; rewrite Hl; engine_unfold;
    unfold elapsed; engine_unfold; rewrite H1; engine_unfold;
    rewrite H2; reflexivity.
Qed.

Lemma early_response_is_not_taken_witness :
  let d := validate memset_zero in
  let s := mkEngine (Some d) 0 (Some 7%nat) (Some WaitRequest) 500
             true false false in
  let e1 := mkEnv 2500 true true 1700000002 in
  let e2 := mkEnv 17500 true true 1700000017 in
  let eventData := String.list_byte_of_string "myroom" in
  exists s1,
    subscriptionHandler eventData s = Ok tt s1 [] /\
    gotResponse s1 = true /\
    run [CallSubscriptionHandler eventData; CallLoop e1; CallLoop e2] s =
      Ok tt
        (with_stateTime (millis e2)
           (with_stateHandler (Some WaitRetry) (with_gotResponse false s1)))
        [EvPublish device_name_topic].
Proof.
  intros d s e1 e2 eventData.
  apply (early_response_is_not_taken e1 e2 s d eventData);
    first [reflexivity | vm_compute; congruence].
Defined.

(** ** Subscribing comes first *)

Lemma subscribed_first_app (seen : bool) (o1 o2 : list Event) :
  subscribed_first seen (o1 ++ o2) =
  subscribed_first seen o1 &&
  subscribed_first (seen || existsb is_subscribe o1) o2.
Proof.
  revert seen. induction o1 as [|e o1 IH]; intros seen.
  - cbn. now rewrite orb_false_r.
  - destruct e; cbn [app subscribed_first existsb is_subscribe];
      rewrite IH; cbn [orb].
    + now rewrite orb_true_r.
    + now rewrite andb_assoc.
    + reflexivity.
    + reflexivity.
Qed.

Lemma call_subscribed_first (c : Call) (s s' : DeviceNameHelper)
  (out : list Event) (seen : bool) :
  subscribed_if_needed seen s = true ->
  call c s = Ok tt s' out ->
  subscribed_first seen out = true /\
  subscribed_if_needed (seen || existsb is_subscribe out) s' = true.
Proof.
  unfold subscribed_if_needed, in_request_loop.
  destruct s as [dt cp cb sh st hs gr fc].
  cbn [stateHandler hasSubscribed].
  destruct seen, hs, c as [env|raw|f|p| | |ev];
    try destruct sh as [[]|]; cbn [orb implb];
    intros HJ; try discriminate HJ;
    engine_cases; intros Hrun; inversion Hrun; subst;
    split; reflexivity.
Qed.

Lemma run_subscribed_first (cs : list Call) :
  forall (s : DeviceNameHelper) (seen : bool),
    subscribed_if_needed seen s = true ->
    subscribed_first seen (events (run cs s)) = true.
Proof.
  induction cs as [|c rest IH]; intros s seen HJ; [reflexivity|].
  destruct (run (c :: rest) s) as [|[] s' out] eqn:E; [reflexivity|].
  apply run_cons_inv in E as (s1 & o1 & o2 & E1 & E2 & ->).
  destruct (call_subscribed_first c s s1 o1 seen HJ E1) as [H1 HJ1].
  specialize (IH s1 _ HJ1). rewrite E2 in IH.
  cbn [events] in *. rewrite subscribed_first_app, H1, IH. reflexivity.
Qed.

(** X11.  In every execution of a constructed object, whatever is called
    and in whatever order, a request is published only after the handler has
    been subscribed: every publish event has a subscribe event before it. *)
Theorem publish_only_after_subscribe (cs : list Call) :
  subscribed_first false (events (run cs constructed)) = true.
Proof. apply run_subscribed_first. reflexivity. Qed.

(** ** The storage subclasses *)

(** X12.  [DeviceNameHelperFile::setup] takes the file's content only when
    the file could be opened, [read] returned exactly the size of the
    structure and the content passes the validation; a short or failed read
    always ends in the fresh record, whatever [read] left in the buffer and
    even if that looks valid.  When the file cannot be opened the member is
    validated as it is.  The handler is [stateStart] in every case. *)
Theorem file_setup_record
  (alloc : DeviceNameHelperData) (fs : FileRead) (s : DeviceNameHelper) :
  exists d',
    DeviceNameHelperFile_setup alloc fs s =
      Ok tt (with_stateHandler (Some Start) (with_data (Some d') s)) [] /\
    (opened fs = true ->
     read_count fs <> sizeof_DeviceNameHelperData ->
     d' = mkData DATA_MAGIC sizeof_DeviceNameHelperData 0 0 0
            (repeat x00 (S DEVICENAMEHELPER_MAX_NAME_LEN))) /\
    (opened fs = true ->
     read_count fs = sizeof_DeviceNameHelperData ->
     d' = validate (read_into fs)) /\
    (opened fs = false -> d' = validate (member alloc s)) /\
    (d' <> mkData DATA_MAGIC sizeof_DeviceNameHelperData 0 0 0
             (repeat x00 (S DEVICENAMEHELPER_MAX_NAME_LEN)) ->
     (opened fs = true /\ read_count fs = sizeof_DeviceNameHelperData /\
      d' = read_into fs) \/
     (opened fs = false /\ d' = member alloc s)).
Proof.
  unfold DeviceNameHelperFile_setup.
  set (raw := if opened fs then
                if negb (read_count fs =? sizeof_DeviceNameHelperData)
                then memset_zero else read_into fs
              else member alloc s).
  exists (validate raw).
  assert (Hfresh : forall r, validate r <> mkData DATA_MAGIC
            sizeof_DeviceNameHelperData 0 0 0
            (repeat x00 (S DEVICENAMEHELPER_MAX_NAME_LEN)) -> validate r = r).
  { intros r Hne.
    destruct (Z.eq_dec (magic r) DATA_MAGIC) as [Hm|Hm];
      [destruct (Z.eq_dec (size r) sizeof_DeviceNameHelperData) as [Hs|Hs]|].
    - now apply validate_match.
    - elim Hne. apply validate_mismatch. now right.
    - elim Hne. apply validate_mismatch. now left. }
  split; [|split; [|split; [|split]]].
  - unfold bind, this. rewrite setup_outcome. reflexivity.
  - intros Ho Hc. subst raw. rewrite Ho.
    apply Z.eqb_neq in Hc. rewrite Hc. reflexivity.
  - intros Ho Hc. subst raw. rewrite Ho, Hc, Z.eqb_refl. reflexivity.
  - intros Ho. subst raw. rewrite Ho. reflexivity.
  - intros Hne. pose proof (Hfresh raw Hne) as Hr. subst raw.
    destruct (opened fs); [left | right; split; [reflexivity | exact Hr]].
    destruct (Z.eqb_spec (read_count fs) sizeof_DeviceNameHelperData)
      as [Hc|Hc]; cbn [negb] in *.
    + repeat split; assumption.
    + exfalso. vm_compute in Hr. discriminate Hr.
Qed.

(** X13.  Calling [DeviceNameHelperNoStorage::setup()] again on an object
    that has been set up loses nothing: whatever was called in between, the
    record stays as it is, and the engine starts over at [stateStart]. *)
Theorem setup_again_keeps_record
  (raw alloc : DeviceNameHelperData) (cs : list Call) (s : DeviceNameHelper) :
  exists s1 out,
    run (CallSetup raw :: cs) s = Ok tt s1 out /\
    DeviceNameHelperNoStorage_setup alloc s1 =
      Ok tt (with_stateHandler (Some Start) s1) [].
Proof.
  destruct (after_setup_valid_helper raw cs s)
    as (s1 & out & d1 & E & Hd & Hm & Hs).
  exists s1, out. split; [assumption|].
  unfold DeviceNameHelperNoStorage_setup, bind, this, member.
  rewrite Hd, setup_outcome, (validate_match d1 Hm Hs).
  destruct s1; cbn in *. subst. reflexivity.
Qed.

Lemma instances_fixed (ks : list Subclass) (o : Subclass) :
  instances ks (Some o) = repeat o (length ks).
Proof.
  induction ks as [|k rest IH]; [reflexivity|].
  cbn [instances instance fst snd length repeat]. now rewrite IH.
Qed.

(** X14.  The singleton is shared by all subclasses: [getInstance()] is
    null until some [instance()] is called; the first [instance()] call
    creates the object, and every later [instance()] call, of whichever
    subclass, returns that first object. *)
Theorem instance_is_first_created (k : Subclass) (ks : list Subclass) :
  getInstance None = None /\
  getInstance (snd (instance k None)) = Some k /\
  instances (k :: ks) None = repeat k (length (k :: ks)).
Proof.
  split; [reflexivity|]. split; [reflexivity|].
  cbn [instances instance fst snd length repeat].
  now rewrite instances_fixed.
Qed.

(** ** The callback and the accessors *)

(** X15.  Whenever a call makes the engine call the name callback, the
    callback is the registered one, and the name it is given is the name
    [getName()] returns when the call is over; [hasName()] holds then. *)
Theorem callback_name_is_getName
  (c : Call) (s s' : DeviceNameHelper) (out : list Event)
  (f : Callback) (arg : list byte) :
  call c s = Ok tt s' out ->
  In (EvNameCallback f arg) out ->
  nameCallback s = Some f /\
  string_at (getName s') = Some arg /\
  hasName s' = true.
Proof.
  open_engine s.
  destruct c as [env|raw|g|p| | |ev];
    [destruct sh as [[]|]| | | | | |];
    engine_cases; intros Hrun; inversion Hrun; subst; cbn [In];
    intros Hin; repeat (destruct Hin as [Hin|Hin]; try discriminate Hin);
    try contradiction;
    inversion Hin; subst; unfold getName, hasName;
    cbn [data string_at name set_lastCheck];
    repeat split;
    match goal with
    | Hn : name_set _ = true |- _ => exact Hn
    end.
Qed.

Lemma callback_name_is_getName_witness :
  let d := set_name (String.list_byte_of_string "myroom" ++ repeat x00 26)
             (validate memset_zero) in
  let s := mkEngine (Some d) 0 (Some 7%nat) (Some Start) 0
             false false false in
  let env := mkEnv 5 false false 0 in
  let s' := with_stateTime 5 (with_stateHandler (Some WaitRecheck) s) in
  nameCallback s = Some 7%nat /\
  string_at (getName s') = Some (String.list_byte_of_string "myroom") /\
  hasName s' = true.
Proof.
  intros d s env s'.
  apply (callback_name_is_getName (CallLoop env) s s'
           [EvNameCallback 7%nat (String.list_byte_of_string "myroom")]
           7%nat (String.list_byte_of_string "myroom"));
    [reflexivity | left; reflexivity].
Defined.

(** ** No recheck before it is due *)

Lemma recheck_not_due_tick
  (env : Env) (s : DeviceNameHelper) (d : DeviceNameHelperData) :
  stateHandler s = Some WaitRecheck ->
  forceCheck s = false ->
  checkPeriod s <> 0 ->
  data s = Some d ->
  Time_isValid env = false \/
  Time_now env <= wrap_s64 (lastCheck d + checkPeriod s) ->
  exists t, loop env s = Ok tt (with_stateTime t s) [].
Proof.
  intros Hh Hf Hp Hd Hnot. open_engine s. engine_unfold.
  destruct (elapsed env _ <? 10000); [exists st; reflexivity|].
  exists (millis env). engine_unfold.
  destruct (Z.eqb_spec cp 0) as [E|_]; [contradiction|].
  destruct Hnot as [Hv|Hlate].
  - rewrite Hv. reflexivity.
  - apply Z.ltb_ge in Hlate.
    destruct (Time_isValid env); engine_unfold; [|reflexivity].
    rewrite Hlate. reflexivity.
Qed.

(** X16.  In [stateWaitRecheck] with a check period set and no forced
    check, no number of ticks starts a fetch as long as, at each tick, the
    time is not valid or [Time.now()] has not passed [lastCheck] plus the
    period: the engine stays in [stateWaitRecheck], only [stateTime] moves,
    and nothing is subscribed, published, saved or called. *)
Theorem no_recheck_before_due
  (envs : list Env) (s : DeviceNameHelper) (d : DeviceNameHelperData) :
  stateHandler s = Some WaitRecheck ->
  forceCheck s = false ->
  checkPeriod s <> 0 ->
  data s = Some d ->
  Forall (fun env =>
            Time_isValid env = false \/
            Time_now env <= wrap_s64 (lastCheck d + checkPeriod s)) envs ->
  exists t, run (map CallLoop envs) s = Ok tt (with_stateTime t s) [].
Proof.
  intros Hh Hf Hp Hd Henvs.
  remember (checkPeriod s) as cp eqn:Hcp.
  revert s Hh Hf Hd Hcp.
  induction Henvs as [|env rest Hnot _ IH]; intros s Hh Hf Hd Hcp.
  - exists (stateTime s). destruct s; reflexivity.
  - assert (Hp' : checkPeriod s <> 0) by congruence.
    rewrite Hcp in Hnot.
    destruct (recheck_not_due_tick env s d Hh Hf Hp' Hd Hnot) as (t1 & E1).
    destruct (IH (with_stateTime t1 s)) as (t2 & E2);
      try (destruct s; assumption).
    exists t2. cbn [map].
    replace (with_stateTime t2 s)
      with (with_stateTime t2 (with_stateTime t1 s))
      by (destruct s; reflexivity).
    apply (run_cons (CallLoop env) (map CallLoop rest) s
             (with_stateTime t1 s) _ [] [] E1 E2).
Qed.

(** A daily check, one hour after the last one, and a tick with the time
    not valid. *)
Lemma no_recheck_before_due_witness :
  let d := set_lastCheck 1700000000 (validate memset_zero) in
  let s := mkEngine (Some d) 86400 None (Some WaitRecheck) 0
             true true false in
  let envs := [mkEnv 10000 true true 1700003600;
               mkEnv 20000 true false 1800000000;
               mkEnv 30000 true true 1700086400] in
  exists t, run (map CallLoop envs) s = Ok tt (with_stateTime t s) [].
Proof.
  intros d s envs.
  apply (no_recheck_before_due envs s d);
    try reflexivity; try discriminate.
  apply Forall_cons; [right; vm_compute; congruence|].
  apply Forall_cons; [left; reflexivity|].
  apply Forall_cons; [right; vm_compute; congruence|].
  apply Forall_nil.
Defined.

(** ** Repeated forced checks *)

(** X17.  While a handler is set, calling [checkName()] twice is the same
    as calling it once.  On an idle engine it is not: the first call sets
    the handler to [stateSubscribe], and the second one, finding a handler,
    also raises [forceCheck], which asks for one more fetch after the one
    just started. *)
Theorem checkName_twice (s : DeviceNameHelper) :
  (stateHandler s <> None ->
   run [CallCheckName; CallCheckName] s = run [CallCheckName] s) /\
  (stateHandler s = None ->
   run [CallCheckName; CallCheckName] s =
     Ok tt (with_forceCheck true (with_stateHandler (Some Subscribe) s)) []).
Proof.
  split; intros Hh; open_engine s.
  - destruct sh; [reflexivity | now elim Hh].
  - reflexivity.
Qed.
